(** * SenseComfort dashboard: a shallow embedding of [frontend/dashboard.js]

    The dashboard polls [GET /latest], stores the parsed body in [lastData]
    and renders it into six DOM elements.  The embedding keeps the shape of
    the script:

    - JSON values as an inductive type, JS numbers as IEEE-754 binary64
      ([PrimFloat.float]), property reads returning [option] ([None] is
      [undefined]);
    - the DOM as a record of optional elements ([document.getElementById]
      returns [null] for an absent element), the script's globals and the
      console as a [State] record threaded through every function;
    - exceptions as a [completion] result: reading a property of [null] and
      converting an object that hides [toString] throw a TypeError.

    The backend that serves [/latest] is not part of the sources; the part of
    it that the properties mention is modelled from the specification in
    module [Backend]. *)

From Stdlib Require Import List String Ascii ZArith Bool Lia DecimalString.
From Stdlib Require Import Floats Uint63.
Import ListNotations.

Local Open Scope string_scope.

Set Warnings "-register-all,-inexact-float".

(* ================================================================== *)
(** ** JavaScript values                                               *)
(* ================================================================== *)

(** The values [JSON.parse] can produce.  An object is the list of its own
    properties; a property read takes the first binding of the key.  A key
    may be any string, [toString] included: the parsed object then has an own
    property of that name. *)
Inductive json : Type :=
| JNull
| JBool (b : bool)
| JNumber (n : float)
| JString (s : string)
| JArray (items : list json)
| JObject (props : list (string * json)).

(** Thrown values: the script only ever logs them. *)
Inductive exn : Type :=
| TypeError
| SyntaxError
| NetworkError.

(** The outcome of evaluating a statement or expression that may throw. *)
Inductive completion (A : Type) : Type :=
| Normal (a : A)
| Throw (e : exn).

Arguments Normal {A} a.
Arguments Throw {A} e.

Definition bind {A B : Type} (c : completion A) (k : A -> completion B)
  : completion B :=
  match c with
  | Normal a => k a
  | Throw e => Throw e
  end.

Notation "x <- c ;; k" := (bind c (fun x => k))
  (at level 61, c at next level, right associativity).

(** What the JavaScript engine supplies and the script does not define:
    [Number::toString] (radix 10), [StringToNumber], and the locale- and
    time-zone-dependent [new Date(v).toLocaleString()] for a primitive [v]
    ([null], a boolean, a number or a string). *)
Class Engine : Type := {
  Number_toString : float -> string;
  StringToNumber : string -> float;
  Date_toLocaleString : json -> string
}.

Definition dq : string := String "034"%char EmptyString.
Definition nl : string := String "010"%char EmptyString.

Fixpoint assoc (k : string) (props : list (string * json)) : option json :=
  match props with
  | [] => None
  | (k', v) :: rest => if String.eqb k k' then Some v else assoc k rest
  end.

(** [v.k] for a value [v] that is neither [null] nor [undefined]: arrays,
    strings, numbers and booleans have none of the properties the script
    reads, so the read yields [undefined]. *)
Definition getProp (k : string) (v : json) : option json :=
  match v with
  | JObject props => assoc k props
  | _ => None
  end.

(** [v.k] in general: reading a property of [null] throws a [TypeError]. *)
Definition readProp (k : string) (v : json) : completion (option json) :=
  match v with
  | JNull => Throw TypeError
  | _ => Normal (getProp k v)
  end.

(** [x !== null && x !== undefined], also [x != null]. *)
Definition present (x : option json) : bool :=
  match x with
  | None | Some JNull => false
  | Some _ => true
  end.

(** [isNaN] on a number. *)
Definition isNaN (x : float) : bool := PrimFloat.is_nan x.

(** [Math.round]: the closest integral number, ties towards +infinity; the
    sign of zero follows the argument. *)
Definition Math_round (x : float) : float :=
  match Prim2SF x with
  | S754_finite s m e =>
      if (0 <=? e)%Z then x
      else
        let k := (- e)%Z in
        let num := ((if s then Z.neg m else Z.pos m) * 2 + 2 ^ k)%Z in
        let n := (num / 2 ^ (k + 1))%Z in
        if (n =? 0)%Z then (if s then neg_zero else zero)
        else if (0 <? n)%Z then of_uint63 (Uint63.of_Z n)
        else (- of_uint63 (Uint63.of_Z (- n)))%float
  | _ => x
  end.

(** [Math.max] and [Math.min] of two numbers: [NaN] is contagious and [+0]
    is larger than [-0]. *)
Definition Math_max (a b : float) : float :=
  if PrimFloat.is_nan a || PrimFloat.is_nan b then nan
  else if (a <? b)%float then b
  else if (b <? a)%float then a
  else if get_sign a then b else a.

Definition Math_min (a b : float) : float :=
  if PrimFloat.is_nan a || PrimFloat.is_nan b then nan
  else if (a <? b)%float then a
  else if (b <? a)%float then b
  else if get_sign a then a else b.

(** An own property of an object. *)
Definition hasOwn (k : string) (props : list (string * json)) : bool :=
  match assoc k props with
  | Some _ => true
  | None => false
  end.

(** Evaluate in order, stop at the first exception. *)
Fixpoint sequence {A : Type} (l : list (completion A)) : completion (list A) :=
  match l with
  | [] => Normal []
  | c :: rest => x <- c ;; xs <- sequence rest ;; Normal (x :: xs)
  end.

Section Conversions.
Context {E : Engine}.

(** [String(v)], also the conversion of a template literal [`${v}`] and of
    an [innerText] assignment.  An object is converted by the [toString] it
    has: [Object.prototype.toString] gives "[object Object]", but an own
    property named [toString], never callable in parsed JSON, hides it, and
    [valueOf] gives back the object, so the conversion throws a TypeError.
    An array joins its elements, [null] ones as the empty string, and throws
    where one of them does. *)
Fixpoint ToString (v : json) : completion string :=
  match v with
  | JNull => Normal "null"
  | JBool true => Normal "true"
  | JBool false => Normal "false"
  | JNumber n => Normal (Number_toString n)
  | JString s => Normal s
  | JArray items =>
      strs <- sequence
                (map (fun x => match x with
                               | JNull => Normal ""
                               | _ => ToString x
                               end) items) ;;
      Normal (String.concat "," strs)
  | JObject props =>
      if hasOwn "toString" props then Throw TypeError
      else Normal "[object Object]"
  end.

(** [Number(v)]: arrays and objects go through their string form, and throw
    where that throws. *)
Definition ToNumber (v : json) : completion float :=
  match v with
  | JNull => Normal zero
  | JBool true => Normal one
  | JBool false => Normal zero
  | JNumber n => Normal n
  | JString s => Normal (StringToNumber s)
  | JArray _ | JObject _ => s <- ToString v ;; Normal (StringToNumber s)
  end.

(** Truthiness, for [a || b]. *)
Definition ToBoolean (x : option json) : bool :=
  match x with
  | None | Some JNull => false
  | Some (JBool b) => b
  | Some (JNumber n) => negb (PrimFloat.is_nan n || PrimFloat.is_zero n)
  | Some (JString s) => negb (String.eqb s "")
  | Some (JArray _) | Some (JObject _) => true
  end.

(** [new Date(x).toLocaleString()].  [new Date(undefined)] has the time
    value [NaN], which every engine prints as ["Invalid Date"].  An array or
    an object is first converted to a string, which may throw. *)
Definition newDate_toLocaleString (x : option json) : completion string :=
  match x with
  | None => Normal "Invalid Date"
  | Some v =>
      match v with
      | JArray _ | JObject _ =>
          s <- ToString v ;; Normal (Date_toLocaleString (JString s))
      | _ => Normal (Date_toLocaleString v)
      end
  end.

(** [String(x)] for a possibly undefined [x]. *)
Definition String_of (x : option json) : completion string :=
  match x with
  | None => Normal "undefined"
  | Some v => ToString v
  end.
End Conversions.

(** The values that can be converted to a string, and so to a number: no
    object with an own [toString] property, and no array holding one. *)
Fixpoint convertible (v : json) : bool :=
  match v with
  | JArray items => forallb convertible items
  | JObject props => negb (hasOwn "toString" props)
  | _ => true
  end.

(** The same for a property that may be missing. *)
Definition convertibleOpt (x : option json) : bool :=
  match x with
  | Some v => convertible v
  | None => true
  end.

(* ================================================================== *)
(** ** The page and the script's state                                 *)
(* ================================================================== *)

(** A [div] built by [document.createElement]. *)
Record Element : Type := {
  className : string;
  innerHTML : string
}.

(** [#readingsList]: the markup last assigned to its [innerHTML] and the
    children appended since (an assignment to [innerHTML] drops them). *)
Record ListEl : Type := {
  markup : string;
  appended : list Element
}.

(** The elements the script looks up by id, [None] when the page has no such
    element, each with the one property the script writes.  The page itself
    is not among the sources: its elements are taken to be distinct, and none
    of the others to lie inside [#readingsList], whose content is replaced. *)
Record Dom : Type := {
  probText : option string;                 (* innerText *)
  statusText : option string;               (* innerText *)
  daysText : option string;                 (* innerText *)
  probCircle : option string;               (* style.background *)
  readingsList : option ListEl;
  sensorReadingsContainer : option string;  (* style.display *)
  toggleReadingsBtn : option string         (* innerText *)
}.

(** The arguments of the three [console.error] calls. *)
Inductive LogEntry : Type :=
| LogErrorStatus (status : nat) (txt : string)
| LogException (e : exn)
| LogInvalidData (data : json).

(** The globals [lastData] and [readingsVisible], the page and the console. *)
Record State : Type := {
  lastData : json;
  readingsVisible : bool;
  dom : Dom;
  console : list LogEntry
}.

Definition initState (d : Dom) : State :=
  {| lastData := JNull; readingsVisible := true; dom := d; console := [] |}.

(** [if (el) el.prop = v]. *)
Definition assign {A : Type} (el : option A) (v : A) : option A :=
  match el with
  | Some _ => Some v
  | None => None
  end.

(** [if (el)]: the element is on the page. *)
Definition onPage {A : Type} (el : option A) : bool :=
  match el with
  | Some _ => true
  | None => false
  end.

(** The writes of [updateUI], each guarded by [if (el)]. *)
Definition setProbText (v : string) (d : Dom) : Dom :=
  {| probText := assign (probText d) v;
     statusText := statusText d;
     daysText := daysText d;
     probCircle := probCircle d;
     readingsList := readingsList d;
     sensorReadingsContainer := sensorReadingsContainer d;
     toggleReadingsBtn := toggleReadingsBtn d |}.

Definition setStatusText (v : string) (d : Dom) : Dom :=
  {| probText := probText d;
     statusText := assign (statusText d) v;
     daysText := daysText d;
     probCircle := probCircle d;
     readingsList := readingsList d;
     sensorReadingsContainer := sensorReadingsContainer d;
     toggleReadingsBtn := toggleReadingsBtn d |}.

Definition setDaysText (v : string) (d : Dom) : Dom :=
  {| probText := probText d;
     statusText := statusText d;
     daysText := assign (daysText d) v;
     probCircle := probCircle d;
     readingsList := readingsList d;
     sensorReadingsContainer := sensorReadingsContainer d;
     toggleReadingsBtn := toggleReadingsBtn d |}.

Definition setProbCircle (v : string) (d : Dom) : Dom :=
  {| probText := probText d;
     statusText := statusText d;
     daysText := daysText d;
     probCircle := assign (probCircle d) v;
     readingsList := readingsList d;
     sensorReadingsContainer := sensorReadingsContainer d;
     toggleReadingsBtn := toggleReadingsBtn d |}.

Definition setList (l : ListEl) (d : Dom) : Dom :=
  {| probText := probText d;
     statusText := statusText d;
     daysText := daysText d;
     probCircle := probCircle d;
     readingsList := assign (readingsList d) l;
     sensorReadingsContainer := sensorReadingsContainer d;
     toggleReadingsBtn := toggleReadingsBtn d |}.

Definition setDisplay (v : string) (d : Dom) : Dom :=
  {| probText := probText d;
     statusText := statusText d;
     daysText := daysText d;
     probCircle := probCircle d;
     readingsList := readingsList d;
     sensorReadingsContainer := assign (sensorReadingsContainer d) v;
     toggleReadingsBtn := toggleReadingsBtn d |}.

Definition with_dom (d : Dom) (s : State) : State :=
  {| lastData := lastData s; readingsVisible := readingsVisible s;
     dom := d; console := console s |}.

Definition with_lastData (data : json) (s : State) : State :=
  {| lastData := data; readingsVisible := readingsVisible s;
     dom := dom s; console := console s |}.

Definition log (e : LogEntry) (s : State) : State :=
  {| lastData := lastData s; readingsVisible := readingsVisible s;
     dom := dom s; console := (console s ++ [e])%list |}.

Definition waitingMarkup : string :=
  nl ++ "      <div class=" ++ dq ++ "reading-item" ++ dq ++ ">" ++
  nl ++ "        <div class=" ++ dq ++ "reading-time" ++ dq ++
        ">No readings yet</div>" ++
  nl ++ "      </div>".

Definition emptyMarkup : string :=
  nl ++ "        <div class=" ++ dq ++ "reading-item" ++ dq ++ ">" ++
  nl ++ "          <div class=" ++ dq ++ "reading-time" ++ dq ++
        ">No readings yet</div>" ++
  nl ++ "        </div>".

Definition itemMarkup (t val : string) : string :=
  nl ++ "          <div class=" ++ dq ++ "reading-time" ++ dq ++ ">" ++ t ++
        "</div>" ++
  nl ++ "          <div class=" ++ dq ++ "reading-value" ++ dq ++ ">" ++ val ++
        "</div>".

(** [showWaiting] *)
Definition showWaiting (s : State) : State :=
  let d := dom s in
  with_dom
    {| probText := assign (probText d) "--%";
       statusText := assign (statusText d) "Waiting for sensor...";
       daysText := assign (daysText d) "-- days";
       probCircle := probCircle d;
       readingsList :=
         assign (readingsList d) {| markup := waitingMarkup; appended := [] |};
       sensorReadingsContainer := sensorReadingsContainer d;
       toggleReadingsBtn := toggleReadingsBtn d |} s.

(** [showError] *)
Definition showError (msg : string) (s : State) : State :=
  let d := dom s in
  with_dom
    {| probText := probText d;
       statusText := assign (statusText d) msg;
       daysText := daysText d;
       probCircle := probCircle d;
       readingsList := readingsList d;
       sensorReadingsContainer := sensorReadingsContainer d;
       toggleReadingsBtn := toggleReadingsBtn d |} s.

(** The click handler of [#toggleReadingsBtn]; it is installed only when the
    button and the container both exist. *)
Definition toggleReadings (s : State) : State :=
  let d := dom s in
  match toggleReadingsBtn d, sensorReadingsContainer d with
  | Some _, Some _ =>
      let v := negb (readingsVisible s) in
      {| lastData := lastData s;
         readingsVisible := v;
         dom := {| probText := probText d;
                   statusText := statusText d;
                   daysText := daysText d;
                   probCircle := probCircle d;
                   readingsList := readingsList d;
                   sensorReadingsContainer :=
                     Some (if v then "block" else "none");
                   toggleReadingsBtn := Some (if v then "Hide" else "Show") |};
         console := console s |}
  | _, _ => s
  end.

(** [typeof v === 'object'] *)
Definition typeof_object (v : json) : bool :=
  match v with
  | JNull | JArray _ | JObject _ => true
  | _ => false
  end.

(** A response of [fetch]: its status, and what [resp.text()] and
    [resp.json()] settle to. *)
Record Response : Type := {
  status : nat;
  text : completion string;
  body : completion json
}.

(** [resp.ok] *)
Definition ok (r : Response) : bool :=
  (200 <=? status r)%nat && (status r <=? 299)%nat.

(** What [await fetch(...)] settles to. *)
Inductive FetchResult : Type :=
| Rejected (e : exn)
| Resolved (r : Response).

Definition decimal (n : nat) : string := NilZero.string_of_uint (Nat.to_uint n).

Section Script.
Context {E : Engine}.

(** The body of the [for] loop up to [appendChild]: the element built for
    one history entry.  Reading a property of [null], and converting a
    timestamp or a resistance that cannot be converted, throw; the [catch]
    block reads and converts the timestamp again. *)
Definition renderItem (h : json) : completion Element :=
  t <- match (ts <- readProp "timestamp" h ;; newDate_toLocaleString ts) with
       | Normal t => Normal t
       | Throw _ =>
           (* catch { t = String(h.timestamp || '--'); } *)
           ts <- readProp "timestamp" h ;;
           String_of (if ToBoolean ts then ts else Some (JString "--"))
       end ;;
  r <- readProp "resistance" h ;;
  val <- (if present r then String_of r else Normal "--") ;;
  Normal {| className := "reading-item"; innerHTML := itemMarkup t val |}.

(** [for (const h of show) { ... listEl.appendChild(item); }] *)
Fixpoint appendItems (show : list json) (l : ListEl)
  : ListEl * completion unit :=
  match show with
  | [] => (l, Normal tt)
  | h :: rest =>
      match renderItem h with
      | Normal item =>
          appendItems rest
            {| markup := markup l; appended := (appended l ++ [item])%list |}
      | Throw e => (l, Throw e)
      end
  end.

(** The block [if (listEl) { ... }] of [updateUI]. *)
Definition renderList (data : json) : ListEl * completion unit :=
  let cleared := {| markup := ""; appended := [] |} in
  let history :=
    match getProp "history" data with
    | Some (JArray items) => rev items
    | _ => []
    end in
  match history with
  | [] => ({| markup := emptyMarkup; appended := [] |}, Normal tt)
  | _ :: _ => appendItems (firstn 12 history) cleared
  end.

(** [rawProb]; [Number(data.probability)] is evaluated twice, with the same
    outcome, and throws when the probability cannot be converted. *)
Definition rawProb (data : json) : completion (option float) :=
  match getProp "probability" data with
  | Some v =>
      if present (Some v)
      then n <- ToNumber v ;; Normal (if isNaN n then None else Some n)
      else Normal None
  | None => Normal None
  end.

(** [percent] *)
Definition percent (rp : option float) : option float :=
  match rp with
  | None => None
  | Some p => Some (Math_round (p * 100))
  end.

(** The text assigned to [probEl.innerText]. *)
Definition probDisplay (pct : option float) : string :=
  match pct with
  | None => "--%"
  | Some n => Number_toString n ++ "%"
  end.

(** [data.status ?? '—'], as the [innerText] setter converts it. *)
Definition statusDisplay (data : json) : completion string :=
  let status := getProp "status" data in
  if present status then String_of status else Normal "—".

(** [daysDisplay], given [rawProb]; the template literal throws when
    [days_left] cannot be converted. *)
Definition daysDisplay (data : json) (rp : option float) : completion string :=
  let days_left := getProp "days_left" data in
  if present days_left then
    s <- String_of days_left ;; Normal (s ++ " days")
  else
    Normal
      match rp with
      | Some p =>
          if (0.95 <=? p)%float then "0 days"
          else if (0.75 <=? p)%float then "1 day"
          else if (0.60 <=? p)%float then "2 days"
          else if (0.40 <=? p)%float then "3 days"
          else "-- days"
      | None => "-- days"
      end.

(** [deg] and the gradient assigned to [circleEl.style.background]. *)
Definition deg (pct : option float) : float :=
  match pct with
  | None => zero
  | Some n => (Math_min 100 (Math_max 0 n) * 3.6)%float
  end.

Definition gradient (pct : option float) : string :=
  "conic-gradient(var(--accent) " ++ Number_toString (deg pct) ++
  "deg, rgba(0,0,0,0.06) " ++ Number_toString (deg pct) ++ "deg)".

(** [updateUI].  It throws where a conversion does: at [rawProb] before
    anything is written, at the status text (evaluated only when
    [#statusText] is on the page) after the probability text, at
    [daysDisplay] after the status text, and in the loop over the history
    after the texts and the ring. *)
Definition updateUI (data : json) (s : State) : State * completion unit :=
  if negb (ToBoolean (Some data)) || negb (typeof_object data) then
    (showWaiting (log (LogInvalidData data) s), Normal tt)
  else
    match rawProb data with
    | Throw e => (s, Throw e)
    | Normal rp =>
        let pct := percent rp in
        let d1 := setProbText (probDisplay pct) (dom s) in
        match (if onPage (statusText d1) then statusDisplay data
               else Normal "") with
        | Throw e => (with_dom d1 s, Throw e)
        | Normal st =>
            let d2 := setStatusText st d1 in
            match daysDisplay data rp with
            | Throw e => (with_dom d2 s, Throw e)
            | Normal days =>
                let d3 := setProbCircle (gradient pct) (setDaysText days d2) in
                let display := if readingsVisible s then "block" else "none" in
                match readingsList d3 with
                | None => (with_dom (setDisplay display d3) s, Normal tt)
                | Some _ =>
                    match renderList data with
                    | (l, Normal _) =>
                        (with_dom (setDisplay display (setList l d3)) s,
                         Normal tt)
                    | (l, Throw e) => (with_dom (setList l d3) s, Throw e)
                    end
                end
            end
        end
    end.

(** The [catch (err)] block of [fetchLatest]. *)
Definition caught (err : exn) (s : State) : State :=
  showError "Server unreachable" (log (LogException err) s).

(** [fetchLatest], given what [fetch] settles to.  Every write happens
    after the last [await] of its path, so one call is one step. *)
Definition fetchLatest (f : FetchResult) (s : State) : State :=
  match f with
  | Rejected err => caught err s
  | Resolved resp =>
      if (status resp =? 204)%nat then showWaiting s
      else if negb (ok resp) then
        let txt := match text resp with Normal t => t | Throw _ => "" end in
        showError ("Server " ++ decimal (status resp))
          (log (LogErrorStatus (status resp) txt) s)
      else
        match body resp with
        | Throw err => caught err s
        | Normal data =>
            match updateUI data (with_lastData data s) with
            | (s', Normal _) => s'
            | (s', Throw err) => caught err s'
            end
        end
  end.
End Script.

(** The two entries [fetchLatest] logs right before it calls [showError]. *)
Definition isErrorReport (e : LogEntry) : bool :=
  match e with
  | LogErrorStatus _ _ | LogException _ => true
  | LogInvalidData _ => false
  end.

(** Going from [s] to [s'], the script reported an error: it logged one of
    the two entries above, which it does exactly where it calls
    [showError]. *)
Definition reportsError (s s' : State) : Prop :=
  exists e, console s' = (console s ++ [e])%list /\ isErrorReport e = true.

(** A fetch that fails before any data arrives: [fetch] rejects, the status
    is not OK, or the body of an OK response (other than 204, whose body is
    not read) does not parse. *)
Definition failed (f : FetchResult) : bool :=
  match f with
  | Rejected _ => true
  | Resolved r =>
      negb (status r =? 204)%nat &&
      (negb (ok r) || match body r with Throw _ => true | Normal _ => false end)
  end.

(** Two states that differ at most in the status text in place and in the
    console. *)
Definition sameButStatus (s1 s2 : State) : Prop :=
  lastData s1 = lastData s2 /\
  readingsVisible s1 = readingsVisible s2 /\
  probText (dom s1) = probText (dom s2) /\
  (forall x, assign (statusText (dom s1)) x = assign (statusText (dom s2)) x) /\
  daysText (dom s1) = daysText (dom s2) /\
  probCircle (dom s1) = probCircle (dom s2) /\
  readingsList (dom s1) = readingsList (dom s2) /\
  sensorReadingsContainer (dom s1) = sensorReadingsContainer (dom s2) /\
  toggleReadingsBtn (dom s1) = toggleReadingsBtn (dom s2).

(* ------------------------------------------------------------------ *)
(** *** An engine to evaluate examples with                            *)

(** Decimal digits of an integral number below [2^53] in magnitude, which is
    what [Number::toString] prints for it.  Of a number with a fractional
    part it prints the integral part only. *)
Definition integral_toString (x : float) : string :=
  match Prim2SF x with
  | S754_zero _ => "0"
  | S754_finite s m e =>
      let n := Z.shiftl (Z.pos m) e in
      (if s then "-" else "") ++ decimal (Z.to_nat n)
  | S754_infinity s => if s then "-Infinity" else "Infinity"
  | S754_nan => "NaN"
  end.

(** A stand-in engine.  The theorems hold for every engine; the examples
    evaluated with this one look only at texts built from integral numbers
    below [2^53], which it prints as every engine does.  It parses no string
    to a number and shows a date by its source text, in place of what a
    locale would print. *)
#[local] Instance exampleEngine : Engine := {
  Number_toString := integral_toString;
  StringToNumber := fun _ => nan;
  Date_toLocaleString := fun v =>
    match v with
    | JString s => s
    | _ => "Invalid Date"
    end
}.

Definition fullDom : Dom :=
  {| probText := Some "";
     statusText := Some "";
     daysText := Some "";
     probCircle := Some "";
     readingsList := Some {| markup := ""; appended := [] |};
     sensorReadingsContainer := Some "";
     toggleReadingsBtn := Some "Hide" |}.

Definition reading (resistance : float) (timestamp : string) : json :=
  JObject [("resistance", JNumber resistance);
           ("timestamp", JString timestamp)].

(** An object that hides [toString], as [JSON.parse] gives it for
    [{"toString": 1}]: it can be converted neither to a string nor to a
    number. *)
Definition hidesToString : json := JObject [("toString", JNumber 1)].

(* ================================================================== *)
(** ** The serving layer behind [/latest]                              *)
(* ================================================================== *)

(** The sources hold only the client.  The definitions of this module
    follow sections 3 to 5 of the specification. *)
Module Backend.

(** Modelled from the spec: the status enumeration of a ClassifiedReading
    (the backend is not among the sources). *)
Inductive Status : Type := Normal | Approaching | Detected.

(** Modelled from the spec: the error taxonomy of section 7. *)
Inductive Error : Type := InvalidInput | AdapterFailure.

(** Modelled from the spec: ClassifiedReading, a Reading with its derived
    probability, status and days-left. *)
Record ClassifiedReading : Type := {
  resistance : float;
  timestamp : string;
  probability : float;
  status : Status;
  days_left : option nat
}.

(** Modelled from the spec: the Snapshot served by the Query Endpoint. *)
Record Snapshot : Type := {
  snap_probability : float;
  snap_status : Status;
  snap_days_left : option nat;
  snap_history : list ClassifiedReading
}.

(** Modelled from the spec: the Classifier's band table (section 4.2). *)
Definition classify (p : float) : Status * option nat :=
  if (0.95 <=? p)%float then (Detected, Some 0%nat)
  else if (0.75 <=? p)%float then (Approaching, Some 1%nat)
  else if (0.60 <=? p)%float then (Approaching, Some 2%nat)
  else if (0.40 <=? p)%float then (Approaching, Some 3%nat)
  else (Normal, None).

(** Modelled from the spec: the per-request state machine of the Ingestion
    Endpoint, [Received -> Validated -> Inferred -> Classified -> Appended
    -> Published], or [Rejected]. *)
Inductive Phase : Type :=
| Received (r : float) (ts : string)
| Validated (r : float) (ts : string)
| Inferred (r : float) (ts : string) (p : float)
| Classified (cr : ClassifiedReading)
| Appended (cr : ClassifiedReading)
| Published
| Rejected (err : Error).

(** Modelled from the spec: the process-wide state cell, the History of the
    History Store in ingestion order (oldest first), the current Snapshot
    reference, the request inside the critical section and the requests
    waiting for it (writers are serialized). *)
Record Server : Type := {
  history : list ClassifiedReading;
  current : option Snapshot;
  writer : option Phase;
  waiting : list (float * string)
}.

Definition init : Server :=
  {| history := []; current := None; writer := None; waiting := [] |}.

(** What the environment can make happen next: a reading arrives, the
    ingestion in progress takes its next step, or a client queries. *)
Inductive Event : Type :=
| Arrive (r : float) (ts : string)
| Advance
| Query.

Section Core.
Variables N_MAX N_VISIBLE : nat.
Variable score : float -> float.

(** Modelled from the spec: the Inference Adapter (section 4.1). *)
Definition validate (r : float) : bool := PrimFloat.is_finite r.

Definition in_range (p : float) : bool :=
  ((0 <=? p) && (p <=? 1))%float.

(** Modelled from the spec: [append] of the History Store, evicting the
    oldest entries beyond [N_MAX]. *)
Definition append (cr : ClassifiedReading) (h : list ClassifiedReading)
  : list ClassifiedReading :=
  let h' := (h ++ [cr])%list in
  skipn (List.length h' - N_MAX) h'.

(** Modelled from the spec: [snapshotView], most recent first. *)
Definition snapshotView (limit : nat) (h : list ClassifiedReading)
  : list ClassifiedReading :=
  firstn limit (rev h).

(** Modelled from the spec: the Snapshot Builder (section 4.4). *)
Definition build (cr : ClassifiedReading) (h : list ClassifiedReading)
  : Snapshot :=
  {| snap_probability := probability cr;
     snap_status := status cr;
     snap_days_left := days_left cr;
     snap_history := snapshotView N_VISIBLE h |}.

(** Modelled from the spec: one step of the request in the critical
    section (section 4.5).  The History changes in the step to
    [Appended], the current Snapshot in the step to [Published]. *)
Definition advance (ph : Phase) (sv : Server) : Server :=
  let keep (w : option Phase) :=
    {| history := history sv; current := current sv;
       writer := w; waiting := waiting sv |} in
  match ph with
  | Received r ts =>
      keep (Some (if validate r then Validated r ts
                  else Rejected InvalidInput))
  | Validated r ts =>
      let p := score r in
      keep (Some (if in_range p then Inferred r ts p
                  else Rejected AdapterFailure))
  | Inferred r ts p =>
      keep (Some (Classified
                    {| resistance := r; timestamp := ts;
                       probability := p;
                       status := fst (classify p);
                       days_left := snd (classify p) |}))
  | Classified cr =>
      {| history := append cr (history sv); current := current sv;
         writer := Some (Appended cr); waiting := waiting sv |}
  | Appended cr =>
      {| history := history sv;
         current := Some (build cr (history sv));
         writer := Some Published; waiting := waiting sv |}
  | Published | Rejected _ => keep None
  end.

(** Modelled from the spec: [getLatest] of the Query Endpoint; [None] is
    NoData. *)
Definition getLatest (sv : Server) : option Snapshot := current sv.

(** One event; a query also yields its reply. *)
Definition step (ev : Event) (sv : Server)
  : Server * option (option Snapshot) :=
  match ev with
  | Arrive r ts =>
      ({| history := history sv; current := current sv;
          writer := writer sv; waiting := (waiting sv ++ [(r, ts)])%list |},
       None)
  | Advance =>
      match writer sv, waiting sv with
      | Some ph, _ => (advance ph sv, None)
      | None, (r, ts) :: rest =>
          ({| history := history sv; current := current sv;
              writer := Some (Received r ts); waiting := rest |}, None)
      | None, [] => (sv, None)
      end
  | Query => (sv, Some (getLatest sv))
  end.

(** A schedule of events, with the replies to its queries in order. *)
Fixpoint run (evs : list Event) (sv : Server)
  : Server * list (option Snapshot) :=
  match evs with
  | [] => (sv, [])
  | ev :: rest =>
      let '(sv1, reply) := step ev sv in
      let '(sv2, replies) := run rest sv1 in
      (sv2, match reply with Some r => r :: replies | None => replies end)
  end.
End Core.

(** A Snapshot is whole when its first history entry is the reading its
    scalar fields came from, classified by the band table. *)
Definition whole (sn : Snapshot) : Prop :=
  exists cr rest,
    snap_history sn = cr :: rest /\
    probability cr = snap_probability sn /\
    status cr = snap_status sn /\
    days_left cr = snap_days_left sn /\
    classify (snap_probability sn) = (snap_status sn, snap_days_left sn).

(** A reading carries the status and days-left of its own probability. *)
Definition classified (cr : ClassifiedReading) : Prop :=
  classify (probability cr) = (status cr, days_left cr).

(** What every reachable state satisfies: the current Snapshot is whole, and
    a request that has appended its reading left it last in the History. *)
Definition safe (sv : Server) : Prop :=
  (forall sn, current sv = Some sn -> whole sn) /\
  match writer sv with
  | Some (Classified cr) => classified cr
  | Some (Appended cr) =>
      classified cr /\ exists older, history sv = (older ++ [cr])%list
  | _ => True
  end.

End Backend.

(* ================================================================== *)
(** ** The events of the page                                          *)
(* ================================================================== *)

(** The [DOMContentLoaded] handler installs the click listener of
    [#toggleReadingsBtn] when [toggleBtn && readingsContainer]. *)
Definition hasToggle (d : Dom) : bool :=
  onPage (toggleReadingsBtn d) && onPage (sensorReadingsContainer d).

(** The container's display and the button's label say what
    [readingsVisible] says, as the click listener leaves them. *)
Definition toggleConsistent (s : State) : Prop :=
  sensorReadingsContainer (dom s) =
    Some (if readingsVisible s then "block" else "none") /\
  toggleReadingsBtn (dom s) =
    Some (if readingsVisible s then "Hide" else "Show").

(** What happens on the page once it is wired: a call of [fetchLatest] (the
    initial one, one started by the interval timer, by a click on
    [#refreshBtn] or through [window.refreshDashboard]) sees its fetch
    settle, or [#toggleReadingsBtn] is clicked.  Calls of [fetchLatest] may
    overlap; each one writes only after its last [await], so the events are
    taken in the order in which the fetches settle. *)
Inductive Event : Type :=
| Settled (f : FetchResult)
| ToggleClick.

Section Wiring.
Context {E : Engine}.

Definition handle (ev : Event) (s : State) : State :=
  match ev with
  | Settled f => fetchLatest f s
  | ToggleClick => toggleReadings s
  end.

Definition run (evs : list Event) (s : State) : State :=
  fold_left (fun st ev => handle ev st) evs s.

End Wiring.

(** The number of clicks on the toggle button in a run. *)
Fixpoint clicks (evs : list Event) : nat :=
  match evs with
  | [] => 0
  | ToggleClick :: rest => S (clicks rest)
  | Settled _ :: rest => clicks rest
  end.

(** The parsed body a fetch hands over, when it gets that far: the response
    is OK, not a 204, and its body parses. *)
Definition delivered (f : FetchResult) : option json :=
  match f with
  | Rejected _ => None
  | Resolved r =>
      if (status r =? 204)%nat then None
      else if negb (ok r) then None
      else match body r with
           | Normal data => Some data
           | Throw _ => None
           end
  end.

(** The body delivered last in a run, if any. *)
Fixpoint lastDelivered (evs : list Event) : option json :=
  match evs with
  | [] => None
  | ev :: rest =>
      match lastDelivered rest with
      | Some data => Some data
      | None =>
          match ev with
          | Settled f => delivered f
          | ToggleClick => None
          end
      end
  end.

(** The number of error reports on the console. *)
Definition errorReports (c : list LogEntry) : nat :=
  List.length (filter isErrorReport c).

(** The list holds at most 12 appended entries, and none next to markup of
    its own. *)
Definition listBounded (d : Dom) : Prop :=
  match readingsList d with
  | Some l => List.length (appended l) <= 12 /\ (appended l = [] \/ markup l = "")
  | None => True
  end.

(** [show] in [updateUI]: the entries the loop goes through. *)
Definition shown (data : json) : list json :=
  firstn 12
    match getProp "history" data with
    | Some (JArray items) => rev items
    | _ => []
    end.

Definition isNull (v : json) : bool :=
  match v with
  | JNull => true
  | _ => false
  end.

(** [data] passes the first test of [updateUI]: it is an array or an
    object. *)
Definition isObject (data : json) : bool :=
  ToBoolean (Some data) && typeof_object data.

(** An entry the loop can render: it is not [null], and its timestamp and
    resistance can be converted. *)
Definition renderable (h : json) : bool :=
  negb (isNull h) &&
  convertibleOpt (getProp "timestamp" h) &&
  convertibleOpt (getProp "resistance" h).

(** The status can be written: there is no [#statusText], or [data.status]
    can be converted. *)
Definition statusOk (hasStatus : bool) (data : json) : bool :=
  negb hasStatus || convertibleOpt (getProp "status" data).

(** [updateUI] gets as far as the list: the probability, the status and
    [days_left] can be converted. *)
Definition headOk (hasStatus : bool) (data : json) : bool :=
  convertibleOpt (getProp "probability" data) &&
  statusOk hasStatus data &&
  convertibleOpt (getProp "days_left" data).

(** [updateUI] throws on [data], on a page that has or has not
    [#statusText] and [#readingsList]. *)
Definition throws (hasStatus hasList : bool) (data : json) : bool :=
  isObject data &&
  (negb (headOk hasStatus data) ||
   hasList && negb (forallb renderable (shown data))).

(** A fetch that ends in [showError]: it fails, or it delivers a body on
    which [updateUI] throws. *)
Definition endsInError (hasStatus hasList : bool) (f : FetchResult) : bool :=
  failed f ||
  match delivered f with
  | Some data => throws hasStatus hasList data
  | None => false
  end.

(** The fetches of a run that end in [showError]. *)
Definition errorsIn (hasStatus hasList : bool) (evs : list Event) : nat :=
  List.length
    (filter (fun ev => match ev with
                       | Settled f => endsInError hasStatus hasList f
                       | ToggleClick => false
                       end) evs).

(** The delivered bodies of a run that are no objects, each of which
    [updateUI] notes on the console as invalid data. *)
Definition invalidIn (evs : list Event) : nat :=
  List.length
    (filter (fun ev => match ev with
                       | Settled f =>
                           match delivered f with
                           | Some data => negb (isObject data)
                           | None => false
                           end
                       | ToggleClick => false
                       end) evs).

(** The invalid-data notes on the console. *)
Definition invalidNotes (c : list LogEntry) : nat :=
  List.length (filter (fun e => negb (isErrorReport e)) c).

(** A page with none of the elements the script looks up. *)
Definition barePage : Dom :=
  {| probText := None; statusText := None; daysText := None;
     probCircle := None; readingsList := None;
     sensorReadingsContainer := None; toggleReadingsBtn := None |}.

(** Two pages with the same elements, and the same label on the toggle
    button, which [updateUI] and [showWaiting] do not write. *)
Definition sameShape (d1 d2 : Dom) : Prop :=
  onPage (probText d1) = onPage (probText d2) /\
  onPage (statusText d1) = onPage (statusText d2) /\
  onPage (daysText d1) = onPage (daysText d2) /\
  onPage (probCircle d1) = onPage (probCircle d2) /\
  onPage (readingsList d1) = onPage (readingsList d2) /\
  onPage (sensorReadingsContainer d1) = onPage (sensorReadingsContainer d2) /\
  toggleReadingsBtn d1 = toggleReadingsBtn d2.

(* ================================================================== *)
(** ** Comparisons of binary64 numbers                                 *)
(* ================================================================== *)

Lemma SFcompare_swap (a b : spec_float) :
  SFcompare b a = option_map CompOpp (SFcompare a b).
Proof.
  destruct a as [sa | sa | | sa ma ea], b as [sb | sb | | sb mb eb];
    try destruct sa; try destruct sb; try reflexivity.
  all: cbn; rewrite (Z.compare_antisym eb ea);
    destruct (eb ?= ea)%Z; cbn; try reflexivity;
    rewrite (Pos.compare_cont_antisym ma mb Eq); cbn;
    rewrite ?CompOpp_involutive; reflexivity.
Qed.


(** Two numbers that are not [NaN] are comparable. *)
Lemma leb_false_ltb (x y : float) :
  PrimFloat.is_nan x = false -> PrimFloat.is_nan y = false ->
  (y <=? x)%float = false -> (x <? y)%float = true.
Proof.
  unfold PrimFloat.is_nan.
  rewrite !FloatAxioms.eqb_spec, FloatAxioms.ltb_spec, FloatAxioms.leb_spec.
  unfold SFeqb, SFltb, SFleb.
  rewrite (SFcompare_swap (Prim2SF x) (Prim2SF y)).
  destruct (Prim2SF x) as [sa | sa | | sa ma ea],
           (Prim2SF y) as [sb | sb | | sb mb eb];
    cbn; try congruence;
    try (destruct sa; cbn; congruence);
    try (destruct sb; cbn; congruence);
    try (destruct sa, sb; cbn; congruence).
  intros _ _.
  destruct sa, sb; cbn; try congruence;
    destruct (ea ?= eb)%Z; cbn; try congruence;
    destruct (Pos.compare_cont Eq ma mb); cbn; congruence.
Qed.




(* ================================================================== *)
(** ** More on binary64 numbers: what is never [NaN]                   *)
(* ================================================================== *)

Lemma shr_1_nonneg (mrs : shr_record) :
  (0 <= shr_m mrs)%Z -> (0 <= shr_m (shr_1 mrs))%Z.
Proof.
  destruct mrs as [m r s]. cbn [shr_m]. intros H.
  destruct m as [|[p|p|]|p]; cbn; lia.
Qed.

Lemma iter_pos_nonneg (n : positive) (mrs : shr_record) :
  (0 <= shr_m mrs)%Z -> (0 <= shr_m (iter_pos shr_1 n mrs))%Z.
Proof.
  revert mrs. induction n as [n IH|n IH|]; intros mrs H; cbn [iter_pos].
  - apply IH, IH. now apply shr_1_nonneg.
  - now apply IH, IH.
  - now apply shr_1_nonneg.
Qed.

Lemma shr_fexp_nonneg (prec emax m e : Z) (l : location) :
  (0 <= m)%Z -> (0 <= shr_m (fst (shr_fexp prec emax m e l)))%Z.
Proof.
  intros H. unfold shr_fexp, shr.
  assert (H0 : (0 <= shr_m (shr_record_of_loc m l))%Z).
  { destruct l as [|[ | | ]]; cbn; exact H. }
  destruct (fexp prec emax (Zdigits2 m + e) - e)%Z; cbn [fst]; auto.
  now apply iter_pos_nonneg.
Qed.

Lemma round_nearest_even_nonneg (m : Z) (l : location) :
  (0 <= m)%Z -> (0 <= round_nearest_even m l)%Z.
Proof.
  intros H. destruct l as [|[ | | ]]; cbn; try lia.
  destruct (Z.even m); lia.
Qed.

Lemma binary_round_aux_not_nan (prec emax : Z) (sx : bool) (m e : Z)
    (l : location) :
  (0 <= m)%Z -> binary_round_aux prec emax sx m e l <> S754_nan.
Proof.
  intros H. unfold binary_round_aux.
  pose proof (shr_fexp_nonneg prec emax m e l H) as H1.
  destruct (shr_fexp prec emax m e l) as [mrs' e']. cbn [fst] in H1.
  pose proof (shr_fexp_nonneg prec emax _ e' loc_Exact
                (round_nearest_even_nonneg _ (loc_of_shr_record mrs') H1)) as H2.
  destruct (shr_fexp prec emax
              (round_nearest_even (shr_m mrs') (loc_of_shr_record mrs')) e'
              loc_Exact) as [mrs'' e'']. cbn [fst] in H2.
  destruct (shr_m mrs'') as [|p|p]; try discriminate; [|lia].
  destruct (e'' <=? emax - prec)%Z; discriminate.
Qed.

Lemma binary_normalize_not_nan (prec emax m e : Z) (sz : bool) :
  binary_normalize prec emax m e sz <> S754_nan.
Proof.
  unfold binary_normalize, binary_round.
  destruct m as [|p|p]; try discriminate.
  - destruct (shl_align p e _) as [mz ez]. now apply binary_round_aux_not_nan.
  - destruct (shl_align p e _) as [mz ez]. now apply binary_round_aux_not_nan.
Qed.

Lemma SFcompare_refl (a : spec_float) :
  a <> S754_nan -> SFcompare a a = Some Eq.
Proof.
  destruct a as [s|s| |s m e]; cbn; try congruence.
  - intros _. now destruct s.
  - intros _. rewrite Z.compare_refl, Pos.compare_cont_refl. now destruct s.
Qed.

Lemma is_nan_Prim2SF (x : float) :
  PrimFloat.is_nan x = false <-> Prim2SF x <> S754_nan.
Proof.
  unfold PrimFloat.is_nan. rewrite FloatAxioms.eqb_spec. unfold SFeqb. split.
  - intros H N. rewrite N in H. discriminate.
  - intros H. now rewrite (SFcompare_refl _ H).
Qed.

Lemma mul_100_not_nan (p : float) :
  PrimFloat.is_nan p = false -> PrimFloat.is_nan (p * 100)%float = false.
Proof.
  rewrite !is_nan_Prim2SF, FloatAxioms.mul_spec. unfold SF64mul.
  assert (H100 : exists m e, Prim2SF 100 = S754_finite false m e).
  { eexists _, _. vm_compute. reflexivity. }
  destruct H100 as (m & e & ->).
  destruct (Prim2SF p) as [s|s| |s mp ep]; cbn [SFmul]; try congruence.
  intros _. now apply binary_round_aux_not_nan.
Qed.

Lemma of_uint63_not_nan (n : int) : PrimFloat.is_nan (of_uint63 n) = false.
Proof.
  apply is_nan_Prim2SF. rewrite FloatAxioms.of_uint63_spec.
  apply binary_normalize_not_nan.
Qed.

Lemma opp_not_nan (x : float) :
  PrimFloat.is_nan x = false -> PrimFloat.is_nan (- x)%float = false.
Proof.
  rewrite !is_nan_Prim2SF, FloatAxioms.opp_spec.
  destruct (Prim2SF x); cbn; congruence.
Qed.

Lemma Math_round_not_nan (x : float) :
  PrimFloat.is_nan x = false -> PrimFloat.is_nan (Math_round x) = false.
Proof.
  intros H. unfold Math_round.
  destruct (Prim2SF x) as [s|s| |s m e]; try exact H.
  destruct (0 <=? e)%Z; [exact H|].
  match goal with |- context [(?n =? 0)%Z] => destruct (n =? 0)%Z end.
  { now destruct s. }
  match goal with |- context [(0 <? ?n)%Z] => destruct (0 <? n)%Z end.
  - apply of_uint63_not_nan.
  - apply opp_not_nan, of_uint63_not_nan.
Qed.

Lemma ltb_leb (x y : float) :
  (x <? y)%float = true -> (x <=? y)%float = true.
Proof.
  rewrite FloatAxioms.ltb_spec, FloatAxioms.leb_spec. unfold SFltb, SFleb.
  destruct (SFcompare (Prim2SF x) (Prim2SF y)) as [[ | | ]|]; congruence.
Qed.

Lemma ltb_false_leb (x y : float) :
  PrimFloat.is_nan x = false -> PrimFloat.is_nan y = false ->
  (x <? y)%float = false -> (y <=? x)%float = true.
Proof.
  intros Hx Hy H. destruct (y <=? x)%float eqn:L; [reflexivity|].
  rewrite (leb_false_ltb x y Hx Hy L) in H. discriminate.
Qed.

(** [Math.max(0, n)] of a number is a number, and not below 0. *)
Lemma Math_max_0 (n : float) :
  PrimFloat.is_nan n = false ->
  PrimFloat.is_nan (Math_max 0 n) = false /\ (0 <=? Math_max 0 n)%float = true.
Proof.
  intros H. unfold Math_max. rewrite H.
  change (PrimFloat.is_nan 0) with false. cbn [orb].
  destruct (0 <? n)%float eqn:A.
  - split; [exact H|now apply ltb_leb].
  - destruct (n <? 0)%float; [now split|].
    change (get_sign 0) with false. now split.
Qed.

(** [Math.min(100, r)] of a number that is not below 0 lies between 0 and
    100. *)
Lemma Math_min_100 (r : float) :
  PrimFloat.is_nan r = false -> (0 <=? r)%float = true ->
  (0 <=? Math_min 100 r)%float = true /\ (Math_min 100 r <=? 100)%float = true.
Proof.
  intros H H0. unfold Math_min. rewrite H.
  change (PrimFloat.is_nan 100) with false. cbn [orb].
  destruct (100 <? r)%float eqn:A; [now split|].
  assert (L : (r <=? 100)%float = true) by now apply ltb_false_leb.
  destruct (r <? 100)%float; [now split|].
  change (get_sign 100) with false. now split.
Qed.

(* ================================================================== *)
(** ** Conversions: when they throw                                    *)
(* ================================================================== *)

(** Induction on a JSON value that reaches the elements of an array. *)
Lemma json_array_ind (P : json -> Prop) :
  P JNull -> (forall b, P (JBool b)) -> (forall n, P (JNumber n)) ->
  (forall s, P (JString s)) ->
  (forall items, Forall P items -> P (JArray items)) ->
  (forall props, P (JObject props)) ->
  forall v, P v.
Proof.
  intros Hnull Hbool Hnum Hstr Harr Hobj.
  fix IH 1. intros v.
  destruct v as [|b|n|s|items|props];
    [exact Hnull | apply Hbool | apply Hnum | apply Hstr | | apply Hobj].
  apply Harr. induction items as [|x rest IHl]; constructor.
  - apply IH.
  - exact IHl.
Qed.

(** Split on the test of a specification [if c then ... else ...] and use
    the matching half of [S]. *)
Ltac by_spec S :=
  match goal with
  | |- context [if ?c then _ else _] =>
      destruct c;
      [ let x := fresh "x" in
        destruct S as [x S]; rewrite S; cbn [bind]; eauto
      | rewrite S; reflexivity ]
  end.

Section Converting.
Context {E : Engine}.

(** A conversion to a string throws exactly for the values that are not
    [convertible], and then a TypeError. *)
Lemma ToString_spec (v : json) :
  if convertible v then exists s, ToString v = Normal s
  else ToString v = Throw TypeError.
Proof.
  induction v as [|b|n|s|items IH|props] using json_array_ind;
    try (cbn; eauto; fail).
  - cbn; destruct b; eauto.
  - cbn [convertible ToString].
    assert (H : if forallb convertible items
                then exists strs,
                       sequence
                         (map (fun x => match x with
                                        | JNull => Normal ""
                                        | _ => ToString x
                                        end) items) = Normal strs
                else sequence
                       (map (fun x => match x with
                                      | JNull => Normal ""
                                      | _ => ToString x
                                      end) items) = Throw TypeError).
    { induction IH as [|x rest Hx _ IHr]; cbn [forallb map sequence].
      - eauto.
      - assert (Hx' : if convertible x
                      then exists s, match x with
                                     | JNull => Normal ""
                                     | _ => ToString x
                                     end = Normal s
                      else match x with
                           | JNull => Normal ""
                           | _ => ToString x
                           end = Throw TypeError).
        { destruct x; try exact Hx. cbn. eauto. }
        destruct (convertible x); cbn [andb].
        + destruct Hx' as [s ->]. cbn [bind].
          destruct (forallb convertible rest).
          * destruct IHr as [strs ->]. cbn. eauto.
          * rewrite IHr. reflexivity.
        + rewrite Hx'. reflexivity. }
    destruct (forallb convertible items).
    + destruct H as [strs ->]. cbn. eauto.
    + rewrite H. reflexivity.
  - cbn. destruct (hasOwn "toString" props); cbn; eauto.
Qed.

Lemma ToString_ok (v : json) :
  convertible v = true -> exists s, ToString v = Normal s.
Proof. intros H. pose proof (ToString_spec v) as S. now rewrite H in S. Qed.

Lemma ToString_throws (v : json) :
  convertible v = false -> ToString v = Throw TypeError.
Proof. intros H. pose proof (ToString_spec v) as S. now rewrite H in S. Qed.

Lemma ToString_Normal_convertible (v : json) (s : string) :
  ToString v = Normal s -> convertible v = true.
Proof.
  intros H. destruct (convertible v) eqn:C; [reflexivity|].
  rewrite (ToString_throws v C) in H. discriminate.
Qed.

Lemma ToNumber_spec (v : json) :
  if convertible v then exists n, ToNumber v = Normal n
  else ToNumber v = Throw TypeError.
Proof.
  pose proof (ToString_spec v) as S. unfold ToNumber.
  destruct v as [|[|]|n|s|items|props];
    try (cbn [convertible]; cbv iota; eauto; fail); by_spec S.
Qed.

Lemma String_of_spec (x : option json) :
  if convertibleOpt x then exists s, String_of x = Normal s
  else String_of x = Throw TypeError.
Proof.
  destruct x as [v|]; [apply ToString_spec|cbn; eauto].
Qed.

(** [rawProb] throws exactly when the probability cannot be converted. *)
Lemma rawProb_spec (data : json) :
  if convertibleOpt (getProp "probability" data)
  then exists rp, rawProb data = Normal rp
  else rawProb data = Throw TypeError.
Proof.
  unfold rawProb. destruct (getProp "probability" data) as [v|]; [|cbn; eauto].
  cbn [convertibleOpt]. pose proof (ToNumber_spec v) as S.
  destruct v; cbn [present]; try (cbn [convertible]; cbv iota; eauto; fail);
    by_spec S.
Qed.

Lemma statusDisplay_spec (data : json) :
  if convertibleOpt (getProp "status" data)
  then exists st, statusDisplay data = Normal st
  else statusDisplay data = Throw TypeError.
Proof.
  unfold statusDisplay.
  pose proof (String_of_spec (getProp "status" data)) as S.
  destruct (getProp "status" data) as [v|]; [|cbn; eauto].
  destruct v; try exact S; cbn; eauto.
Qed.

Lemma daysDisplay_spec (data : json) (rp : option float) :
  if convertibleOpt (getProp "days_left" data)
  then exists days, daysDisplay data rp = Normal days
  else daysDisplay data rp = Throw TypeError.
Proof.
  unfold daysDisplay.
  pose proof (String_of_spec (getProp "days_left" data)) as S.
  destruct (getProp "days_left" data) as [v|]; [|cbn; eauto].
  destruct v; cbn [present]; try (cbn; eauto; fail); by_spec S.
Qed.

Lemma newDate_spec (x : option json) :
  if convertibleOpt x then exists t, newDate_toLocaleString x = Normal t
  else newDate_toLocaleString x = Throw TypeError.
Proof.
  destruct x as [v|]; [|cbn; eauto].
  pose proof (ToString_spec v) as S. cbn [convertibleOpt].
  unfold newDate_toLocaleString.
  destruct v; try (cbn [convertible]; cbv iota; eauto; fail); by_spec S.
Qed.

(** What is not convertible is an array or an object, hence truthy. *)
Lemma unconvertible_truthy (v : json) :
  convertible v = false -> ToBoolean (Some v) = true.
Proof. destruct v; cbn; try discriminate; reflexivity. Qed.

(** The loop body throws exactly for an entry that is not [renderable], and
    then a TypeError: the [catch] block never saves it. *)
Lemma renderItem_spec (h : json) :
  if renderable h then exists el, renderItem h = Normal el
  else renderItem h = Throw TypeError.
Proof.
  unfold renderable, renderItem.
  destruct (isNull h) eqn:N.
  { destruct h; try discriminate. reflexivity. }
  assert (R : forall k, readProp k h = Normal (getProp k h)).
  { intros k. destruct h; try reflexivity. discriminate. }
  rewrite !R. cbn [negb andb bind].
  pose proof (newDate_spec (getProp "timestamp" h)) as T.
  destruct (convertibleOpt (getProp "timestamp" h)) eqn:Ct; cbn [andb].
  - destruct T as [t ->]. cbn [bind].
    pose proof (String_of_spec (getProp "resistance" h)) as S.
    destruct (getProp "resistance" h) as [r|]; [|cbn; eauto].
    destruct r; cbn [present]; try (cbn; eauto; fail); by_spec S.
  - rewrite T.
    destruct (getProp "timestamp" h) as [ts|]; [|discriminate].
    cbn [convertibleOpt] in Ct.
    rewrite (unconvertible_truthy ts Ct). cbn [String_of].
    now rewrite (ToString_throws ts Ct).
Qed.

Lemma renderItem_ok (h : json) :
  renderable h = true -> exists el, renderItem h = Normal el.
Proof. intros H. pose proof (renderItem_spec h) as S. now rewrite H in S. Qed.

Lemma renderItem_throws (h : json) :
  renderable h = false -> renderItem h = Throw TypeError.
Proof. intros H. pose proof (renderItem_spec h) as S. now rewrite H in S. Qed.

End Converting.

(* ================================================================== *)
(** ** Properties of the dashboard script                              *)
(* ================================================================== *)

(** The paths through [updateUI]: invalid data, the three conversions that
    may throw, a page without the list, and the list rendered or cut short. *)
Ltac updateUI_paths data s :=
  unfold updateUI;
  destruct (negb (ToBoolean (Some data)) || negb (typeof_object data));
  [ | destruct (rawProb data) as [?rp|?e];
      [ destruct (if onPage _ then statusDisplay data else Normal "")
          as [?st|?e];
        [ destruct (daysDisplay data _) as [?days|?e];
          [ cbn [readingsList setProbCircle setDaysText setStatusText
                 setProbText];
            destruct (readingsList (dom s)) as [?l0|] eqn:?L;
            [ destruct (renderList data) as [?lr [[]|?e]] | ] | ] | ] | ] ].

Section Rendering.
Context {E : Engine}.

(** Only an object has a property the script reads. *)
Lemma getProp_object (k : string) (data v : json) :
  getProp k data = Some v -> exists props, data = JObject props.
Proof. destruct data; cbn; try discriminate. eauto. Qed.


Lemma isObject_cases (data : json) :
  isObject data = true <->
  (exists items, data = JArray items) \/ (exists props, data = JObject props).
Proof.
  unfold isObject. split.
  - destruct data; cbn; rewrite ?andb_false_r; try discriminate; eauto.
  - intros [[items ->] | [props ->]]; reflexivity.
Qed.

Lemma isObject_guard (data : json) :
  negb (ToBoolean (Some data)) || negb (typeof_object data)
  = negb (isObject data).
Proof. unfold isObject. now rewrite negb_andb. Qed.

(** The status text as [updateUI] computes it: not at all without
    [#statusText]. *)
Lemma statusOk_ok (hasStatus : bool) (data : json) :
  statusOk hasStatus data = true ->
  exists st,
    (if hasStatus then statusDisplay data else Normal "") = Normal st.
Proof.
  unfold statusOk. destruct hasStatus; cbn [negb orb]; [|eauto].
  intros H. pose proof (statusDisplay_spec data) as S. now rewrite H in S.
Qed.

(** The conversions before the list succeed when [headOk] says so. *)
Lemma headOk_ok (hasStatus : bool) (data : json) :
  headOk hasStatus data = true ->
  (exists rp, rawProb data = Normal rp) /\
  (exists st,
     (if hasStatus then statusDisplay data else Normal "") = Normal st) /\
  (forall rp, exists days, daysDisplay data rp = Normal days).
Proof.
  unfold headOk. intros H.
  apply andb_prop in H. destruct H as [H Hd].
  apply andb_prop in H. destruct H as [Hp Hs].
  pose proof (rawProb_spec data) as P. rewrite Hp in P.
  split; [exact P|]. split; [now apply statusOk_ok|].
  intros rp. pose proof (daysDisplay_spec data rp) as D. now rewrite Hd in D.
Qed.

(** What [updateUI] does once the conversions before the list succeed. *)
Lemma updateUI_head_ok (data : json) (s : State) (rp : option float)
    (st days : string) :
  isObject data = true ->
  rawProb data = Normal rp ->
  (if onPage (statusText (dom s)) then statusDisplay data else Normal "")
    = Normal st ->
  daysDisplay data rp = Normal days ->
  updateUI data s =
  let d3 := setProbCircle (gradient (percent rp))
              (setDaysText days
                 (setStatusText st
                    (setProbText (probDisplay (percent rp)) (dom s)))) in
  let display := if readingsVisible s then "block" else "none" in
  match readingsList d3 with
  | None => (with_dom (setDisplay display d3) s, Normal tt)
  | Some _ =>
      match renderList data with
      | (l, Normal _) =>
          (with_dom (setDisplay display (setList l d3)) s, Normal tt)
      | (l, Throw e) => (with_dom (setList l d3) s, Throw e)
      end
  end.
Proof.
  intros O P S D. unfold updateUI.
  rewrite isObject_guard, O, P. cbn [negb].
  change (statusText (setProbText (probDisplay (percent rp)) (dom s)))
    with (statusText (dom s)).
  now rewrite S, D.
Qed.

(** What [updateUI] does when one of them throws: it throws a TypeError and
    has not touched the days text, the ring, the list or the container. *)
Lemma updateUI_head_throws (data : json) (s : State) :
  isObject data = true ->
  headOk (onPage (statusText (dom s))) data = false ->
  let s' := fst (updateUI data s) in
  snd (updateUI data s) = Throw TypeError /\
  daysText (dom s') = daysText (dom s) /\
  probCircle (dom s') = probCircle (dom s) /\
  readingsList (dom s') = readingsList (dom s) /\
  sensorReadingsContainer (dom s') = sensorReadingsContainer (dom s).
Proof.
  intros O H. unfold updateUI. rewrite isObject_guard, O. cbn [negb].
  unfold headOk, statusOk in H.
  pose proof (rawProb_spec data) as P.
  destruct (convertibleOpt (getProp "probability" data)).
  2:{ rewrite P. cbn. auto. }
  destruct P as [rp ->]. cbn [andb] in H.
  cbn [statusText setProbText].
  pose proof (statusDisplay_spec data) as S.
  destruct (statusText (dom s)) as [old|] eqn:St; cbn [onPage negb orb] in H |- *.
  - destruct (convertibleOpt (getProp "status" data)).
    2:{ rewrite S. cbn. auto. }
    destruct S as [st ->]. cbn [andb] in H.
    pose proof (daysDisplay_spec data rp) as D. rewrite H in D. rewrite D.
    cbn. auto.
  - cbn [andb] in H.
    pose proof (daysDisplay_spec data rp) as D. rewrite H in D. rewrite D.
    cbn. auto.
Qed.

(** What [updateUI] leaves on the page once the conversions before the list
    succeed. *)
Lemma updateUI_painted (data : json) (s : State) (rp : option float)
    (st days : string) :
  isObject data = true ->
  rawProb data = Normal rp ->
  (if onPage (statusText (dom s)) then statusDisplay data else Normal "")
    = Normal st ->
  daysDisplay data rp = Normal days ->
  let d := dom s in
  let d' := dom (fst (updateUI data s)) in
  probText d' = assign (probText d) (probDisplay (percent rp)) /\
  statusText d' = assign (statusText d) st /\
  daysText d' = assign (daysText d) days /\
  probCircle d' = assign (probCircle d) (gradient (percent rp)) /\
  toggleReadingsBtn d' = toggleReadingsBtn d /\
  readingsList d' =
    match readingsList d with
    | Some _ => Some (fst (renderList data))
    | None => None
    end /\
  sensorReadingsContainer d' =
    match snd (updateUI data s) with
    | Normal _ =>
        assign (sensorReadingsContainer d)
               (if readingsVisible s then "block" else "none")
    | Throw _ => sensorReadingsContainer d
    end /\
  snd (updateUI data s) =
    match readingsList d with
    | Some _ => snd (renderList data)
    | None => Normal tt
    end.
Proof.
  intros O P S D. rewrite (updateUI_head_ok data s rp st days O P S D).
  cbn [readingsList setProbCircle setDaysText setStatusText setProbText].
  destruct (readingsList (dom s)) as [l0|] eqn:L; [|cbn; rewrite ?L; repeat split].
  destruct (renderList data) as [lr [[]|e]]; cbn; rewrite ?L; repeat split.
Qed.

(** The probability text is written as soon as [rawProb] is known, whatever
    happens later. *)
Lemma updateUI_probText (data : json) (s : State) (rp : option float) :
  isObject data = true ->
  rawProb data = Normal rp ->
  probText (dom (fst (updateUI data s))) =
  assign (probText (dom s)) (probDisplay (percent rp)).
Proof.
  intros O P. unfold updateUI. rewrite isObject_guard, O, P. cbn [negb].
  destruct (if onPage _ then _ else _) as [st|e]; [|reflexivity].
  destruct (daysDisplay data rp) as [days|e]; [|reflexivity].
  cbn [readingsList setProbCircle setDaysText setStatusText setProbText].
  destruct (readingsList (dom s)); [|reflexivity].
  destruct (renderList data) as [lr [u|e]]; reflexivity.
Qed.


Lemma rawProb_not_nan (data : json) (p : float) :
  rawProb data = Normal (Some p) -> PrimFloat.is_nan p = false.
Proof.
  unfold rawProb. destruct (getProp "probability" data) as [v|]; [|discriminate].
  destruct (present (Some v)); [|discriminate].
  destruct (ToNumber v) as [n|e]; [|discriminate]. cbn [bind].
  unfold isNaN. destruct (PrimFloat.is_nan n) eqn:N; [discriminate|].
  now intros [= <-].
Qed.

(** The bands leave no number out: a parsed probability is never [NaN], so
    it is at least 0.40 or below it, and likewise at each threshold. *)
Lemma rawProb_comparable (data : json) (p t : float) :
  rawProb data = Normal (Some p) -> PrimFloat.is_nan t = false ->
  (t <=? p)%float = true \/ (p <? t)%float = true.
Proof.
  intros H Ht. pose proof (rawProb_not_nan _ _ H) as Hp.
  destruct (t <=? p)%float eqn:L; [now left|right].
  now apply leb_false_ltb.
Qed.


(** C9: [showError] writes the status text and nothing else: the probability
    text, the days text, the progress ring, the readings list, the container,
    the toggle button and the script's globals keep their values. *)
Theorem C9_showError_frame (msg : string) (s : State) :
  let s' := showError msg s in
  probText (dom s') = probText (dom s) /\
  daysText (dom s') = daysText (dom s) /\
  probCircle (dom s') = probCircle (dom s) /\
  readingsList (dom s') = readingsList (dom s) /\
  sensorReadingsContainer (dom s') = sensorReadingsContainer (dom s) /\
  toggleReadingsBtn (dom s') = toggleReadingsBtn (dom s) /\
  lastData s' = lastData s /\
  readingsVisible s' = readingsVisible s /\
  console s' = console s /\
  statusText (dom s') = assign (statusText (dom s)) msg.
Proof. cbn. repeat split. Qed.

(* ------------------------------------------------------------------ *)
(** *** The readings list                                              *)

Lemma appendItems_markup (show : list json) (l : ListEl) :
  markup (fst (appendItems show l)) = markup l.
Proof.
  revert l. induction show as [|h rest IH]; intros l; cbn; [reflexivity|].
  destruct (renderItem h); [|reflexivity]. now rewrite IH.
Qed.

Lemma appendItems_length (show : list json) (l : ListEl) :
  List.length (appended (fst (appendItems show l))) <=
  List.length (appended l) + List.length show.
Proof.
  revert l. induction show as [|h rest IH]; intros l; cbn [appendItems].
  - cbn. lia.
  - destruct (renderItem h) as [item|e]; cbn [fst List.length]; [|lia].
    specialize (IH {| markup := markup l;
                      appended := (appended l ++ [item])%list |}).
    cbn [appended] in IH. rewrite length_app in IH. cbn in IH. lia.
Qed.

Lemma renderList_bound (data : json) :
  List.length (appended (fst (renderList data))) <= 12 /\
  (appended (fst (renderList data)) = [] \/ markup (fst (renderList data)) = "").
Proof.
  unfold renderList.
  destruct (match getProp "history" data with
            | Some (JArray items) => rev items
            | _ => []
            end) as [|h0 rest] eqn:H.
  - cbn. split; [lia | now left].
  - split.
    + etransitivity; [apply appendItems_length|].
      cbn [appended List.length plus]. apply firstn_le_length.
    + right. now rewrite appendItems_markup.
Qed.

Lemma assign_assign {A : Type} (el : option A) (a b : A) :
  assign (assign el a) b = assign el b.
Proof. now destruct el. Qed.


(** [updateUI] empties the list and fills it with at most 12 entries, or,
    when a conversion before the list throws, leaves it as it was. *)
Lemma updateUI_list (data : json) (s : State) :
  let s' := fst (updateUI data s) in
  (headOk (onPage (statusText (dom s))) data = true -> listBounded (dom s')) /\
  (headOk (onPage (statusText (dom s))) data = false ->
   readingsList (dom s') = readingsList (dom s)).
Proof.
  destruct (isObject data) eqn:O.
  - split.
    + intros H. destruct (headOk_ok _ _ H) as ([rp P] & [st S] & D).
      destruct (D rp) as [days Dd].
      destruct (updateUI_painted data s rp st days O P S Dd)
        as (_ & _ & _ & _ & _ & Hl & _).
      unfold listBounded. rewrite Hl.
      destruct (readingsList (dom s)); [|exact I]. apply renderList_bound.
    + intros H. now destruct (updateUI_head_throws data s O H) as (_ & _ & _ & L & _).
  - assert (H : headOk (onPage (statusText (dom s))) data = true).
    { destruct data; try discriminate; try reflexivity;
        unfold headOk, statusOk; cbn; now rewrite orb_true_r. }
    rewrite H. split; [intros _|discriminate].
    unfold updateUI. rewrite isObject_guard, O. cbn.
    unfold listBounded. cbn. destruct (readingsList (dom s)); cbn; [|exact I].
    split; [lia|now left].
Qed.

Lemma fetchLatest_listBounded (f : FetchResult) (s : State) :
  listBounded (dom s) -> listBounded (dom (fetchLatest f s)).
Proof.
  intros B. unfold fetchLatest, caught. destruct f as [err|r]; [exact B|].
  destruct (status r =? 204)%nat.
  { unfold listBounded. cbn. destruct (readingsList (dom s)); cbn; [|exact I].
    split; [lia|now left]. }
  destruct (negb (ok r)); [exact B|].
  destruct (body r) as [data|err]; [|exact B].
  assert (B' : listBounded (dom (fst (updateUI data (with_lastData data s))))).
  { destruct (updateUI_list data (with_lastData data s)) as [A C].
    destruct (headOk (onPage (statusText (dom (with_lastData data s)))) data).
    - now apply A.
    - unfold listBounded. rewrite (C eq_refl). exact B. }
  destruct (updateUI data (with_lastData data s)) as [s1 [u|err]]; exact B'.
Qed.

(** C5: whatever the length of [history], the readings list holds at most 12
    entries after [updateUI], appended to an emptied list, never next to the
    placeholder markup: always when [updateUI] gets as far as the list, and
    otherwise, the list being left alone, when it held at most 12 before.  So
    over any run of polls and clicks the list never holds more than 12. *)
Theorem C5_at_most_12_entries (data : json) (s : State) :
  (headOk (onPage (statusText (dom s))) data = true \/ listBounded (dom s) ->
   match readingsList (dom (fst (updateUI data s))) with
   | Some l => List.length (appended l) <= 12 /\ (appended l = [] \/ markup l = "")
   | None => True
   end) /\
  (listBounded (dom s) -> forall evs, listBounded (dom (run evs s))).
Proof.
  split.
  - intros H. destruct (updateUI_list data s) as [A C].
    destruct (headOk (onPage (statusText (dom s))) data) eqn:Hd.
    + now apply A.
    + destruct H as [H | H]; [discriminate|].
      rewrite (C eq_refl). exact H.
  - intros B evs. revert s B. induction evs as [|ev rest IH]; intros s B.
    + exact B.
    + change (run (ev :: rest) s) with (run rest (handle ev s)). apply IH.
      destruct ev as [f|]; cbn [handle].
      * now apply fetchLatest_listBounded.
      * unfold toggleReadings, listBounded in *.
        destruct (toggleReadingsBtn (dom s)), (sensorReadingsContainer (dom s));
          exact B.
Qed.

Lemma Forall_firstn {A : Type} (P : A -> Prop) (n : nat) (l : list A) :
  Forall P l -> Forall P (firstn n l).
Proof.
  intros F. rewrite <- (firstn_skipn n l) in F.
  now apply Forall_app in F.
Qed.

Lemma appendItems_all (show : list json) (l : ListEl) :
  Forall (fun h => renderable h = true) show ->
  exists els,
    appendItems show l =
      ({| markup := markup l; appended := (appended l ++ els)%list |},
       Normal tt) /\
    Forall2 (fun h el => renderItem h = Normal el) show els.
Proof.
  intros F. revert l. induction F as [|h rest Hh F IH]; intros l.
  - exists []. cbn. rewrite app_nil_r. destruct l; split; [reflexivity|constructor].
  - destruct (renderItem_ok h Hh) as [el Hel].
    destruct (IH {| markup := markup l;
                    appended := (appended l ++ [el])%list |}) as [els [A B]].
    exists (el :: els). cbn [appendItems]. rewrite Hel, A. cbn [markup appended].
    rewrite <- app_assoc. split; [reflexivity|]. now constructor.
Qed.

Lemma renderList_shown (data : json) :
  renderList data =
  match shown data with
  | [] => ({| markup := emptyMarkup; appended := [] |}, Normal tt)
  | _ :: _ => appendItems (shown data) {| markup := ""; appended := [] |}
  end.
Proof.
  unfold renderList, shown.
  destruct (match getProp "history" data with
            | Some (JArray items) => rev items
            | _ => []
            end); reflexivity.
Qed.

(** C3 (as the script has it): the list shows [history] in reverse, up to 12
    entries: the last entry of [history] comes first.  A history sent oldest
    first is shown most recent first; one sent most recent first is shown
    oldest first.  This is so when the probability, the status and
    [days_left] can be converted, so that [updateUI] gets as far as the list,
    and each of the entries shown can be rendered (none is [null] or has a
    timestamp or resistance that cannot be converted). *)
Theorem C3_list_shows_history_reversed (data : json) (s : State)
    (items : list json) (l0 : ListEl) :
  getProp "history" data = Some (JArray items) ->
  headOk (onPage (statusText (dom s))) data = true ->
  Forall (fun h => renderable h = true) (firstn 12 (rev items)) ->
  readingsList (dom s) = Some l0 ->
  exists l,
    readingsList (dom (fst (updateUI data s))) = Some l /\
    Forall2 (fun h el => renderItem h = Normal el)
            (firstn 12 (rev items)) (appended l).
Proof.
  intros Hh H F Hl.
  destruct (getProp_object _ _ _ Hh) as [props ->].
  destruct (headOk_ok _ _ H) as ([rp P] & [st S] & D).
  destruct (D rp) as [days Dd].
  destruct (updateUI_painted (JObject props) s rp st days eq_refl P S Dd)
    as (_ & _ & _ & _ & _ & Hr & _).
  rewrite Hl in Hr. rewrite Hr, renderList_shown.
  assert (Hs : shown (JObject props) = firstn 12 (rev items)).
  { unfold shown. now rewrite Hh. }
  rewrite Hs.
  destruct (firstn 12 (rev items)) as [|h0 rest] eqn:R.
  - eexists. split; [reflexivity|]. constructor.
  - destruct (appendItems_all _ {| markup := ""; appended := [] |} F)
      as [els [A B]].
    rewrite A. eexists. split; [reflexivity|]. exact B.
Qed.

(** What does hold of the placeholders: a probability that is missing, null
    or converts to [NaN] shows "--%", and an entry with no resistance, or a
    null one, shows "--" for its value. *)
Lemma updateUI_probText_placeholder (props : list (string * json)) (s : State) :
  rawProb (JObject props) = Normal None ->
  probText (dom (fst (updateUI (JObject props) s))) =
  assign (probText (dom s)) "--%".
Proof.
  intros H. now rewrite (updateUI_probText (JObject props) s None eq_refl H).
Qed.

(** A probability that is no number but converts to one shows a percentage:
    [true] is 1, hence 100 percent. *)
Lemma updateUI_probText_true (s : State) :
  probText (dom (fst (updateUI (JObject [("probability", JBool true)]) s))) =
  assign (probText (dom s)) (Number_toString 100 ++ "%").
Proof.
  now rewrite (updateUI_probText (JObject [("probability", JBool true)]) s
                 (Some one) eq_refl eq_refl).
Qed.

Lemma renderItem_value_placeholder (h : json) (t : string) :
  h <> JNull -> present (getProp "resistance" h) = false ->
  newDate_toLocaleString (getProp "timestamp" h) = Normal t ->
  renderItem h =
  Normal {| className := "reading-item"; innerHTML := itemMarkup t "--" |}.
Proof.
  intros Hh Hr Ht. unfold renderItem, readProp.
  destruct h; try congruence; cbn [bind]; rewrite Ht; cbn [bind];
    now rewrite ?Hr.
Qed.

(** C10 (what the script does): an entry with no timestamp shows
    "Invalid Date", not the "--" placeholder, because [new Date(undefined)]
    does not throw and the [catch] block that holds the placeholder is not
    entered.  With [#readingsList] on the page, a [null] history entry makes
    [updateUI] throw, because that [catch] block reads [h.timestamp] again;
    [fetchLatest] then shows "Server unreachable" over a page painted half,
    with [lastData] already replaced. *)
Theorem C10_updateUI_is_not_total :
  let no_timestamp := JObject [("resistance", JNumber 823)] in
  let bad := JObject [("probability", JNumber 0.5);
                      ("status", JString "Approaching");
                      ("history", JArray [JNull])] in
  let resp := {| status := 200; text := Normal ""; body := Normal bad |} in
  renderItem no_timestamp
    = Normal {| className := "reading-item";
                innerHTML := itemMarkup "Invalid Date" (Number_toString 823) |} /\
  snd (updateUI bad (initState fullDom)) = Throw TypeError /\
  statusText (dom (fetchLatest (Resolved resp) (initState fullDom)))
    = Some "Server unreachable" /\
  daysText (dom (fetchLatest (Resolved resp) (initState fullDom)))
    = Some "3 days" /\
  lastData (fetchLatest (Resolved resp) (initState fullDom)) = bad.
Proof. repeat split. Qed.

(* ------------------------------------------------------------------ *)
(** *** Polling                                                        *)

(** [updateUI] writes neither [lastData] nor [readingsVisible], and logs
    only the invalid-data entry. *)
Lemma updateUI_globals (data : json) (s : State) :
  lastData (fst (updateUI data s)) = lastData s /\
  readingsVisible (fst (updateUI data s)) = readingsVisible s /\
  (console (fst (updateUI data s)) = console s \/
   console (fst (updateUI data s)) = (console s ++ [LogInvalidData data])%list /\
   snd (updateUI data s) = Normal tt).
Proof. updateUI_paths data s; cbn; auto. Qed.

Lemma sameButStatus_onPage (s1 s2 : State) :
  sameButStatus s1 s2 ->
  onPage (statusText (dom s1)) = onPage (statusText (dom s2)).
Proof.
  intros (_ & _ & _ & Hs & _). specialize (Hs "").
  destruct (statusText (dom s1)), (statusText (dom s2)); cbn in *; congruence.
Qed.

(** What [updateUI] paints does not depend on the status text it replaces,
    nor on the console. *)
Lemma updateUI_sameButStatus (data : json) (s1 s2 : State) :
  sameButStatus s1 s2 ->
  snd (updateUI data s1) = snd (updateUI data s2) /\
  sameButStatus (fst (updateUI data s1)) (fst (updateUI data s2)) /\
  (snd (updateUI data s1) = Normal tt ->
   dom (fst (updateUI data s1)) = dom (fst (updateUI data s2))).
Proof.
  intros S. pose proof (sameButStatus_onPage _ _ S) as Ho.
  pose proof S as (Hd0 & Hv & Hp & Hs & Hd & Hc & Hl & Hk & Ht).
  assert (Hs' : forall a x, assign (assign (statusText (dom s1)) a) x
                            = assign (assign (statusText (dom s2)) a) x).
  { intros a x. now rewrite !assign_assign. }
  unfold updateUI.
  destruct (negb (ToBoolean (Some data)) || negb (typeof_object data)).
  { unfold sameButStatus. cbn. rewrite Hp, Hs, Hd, Hc, Hl, Hk, Ht.
    repeat split; auto. }
  destruct (rawProb data) as [rp|e].
  2:{ cbn. repeat split; auto; try solve [intros [=]]. }
  change (statusText (setProbText (probDisplay (percent rp)) (dom s1)))
    with (statusText (dom s1)).
  change (statusText (setProbText (probDisplay (percent rp)) (dom s2)))
    with (statusText (dom s2)).
  rewrite Ho.
  destruct (if onPage (statusText (dom s2)) then statusDisplay data
            else Normal "") as [st|e].
  2:{ unfold sameButStatus. cbn. rewrite Hp.
      repeat split; auto; try solve [intros [=]]. }
  destruct (daysDisplay data rp) as [days|e].
  2:{ unfold sameButStatus. cbn. rewrite Hp.
      repeat split; auto; try solve [intros [=]]. }
  cbn [readingsList setProbCircle setDaysText setStatusText setProbText].
  rewrite Hl.
  assert (X : forall v l,
             setDisplay v (setList l
               (setProbCircle (gradient (percent rp))
                  (setDaysText days
                     (setStatusText st
                        (setProbText (probDisplay (percent rp)) (dom s1))))))
             = setDisplay v (setList l
               (setProbCircle (gradient (percent rp))
                  (setDaysText days
                     (setStatusText st
                        (setProbText (probDisplay (percent rp)) (dom s2))))))).
  { intros v l. unfold setDisplay, setList, setProbCircle, setDaysText,
      setStatusText, setProbText. cbn.
    now rewrite Hp, Hs, Hd, Hc, Hk, Ht, Hl. }
  assert (Y : forall v,
             setDisplay v
               (setProbCircle (gradient (percent rp))
                  (setDaysText days
                     (setStatusText st
                        (setProbText (probDisplay (percent rp)) (dom s1)))))
             = setDisplay v
               (setProbCircle (gradient (percent rp))
                  (setDaysText days
                     (setStatusText st
                        (setProbText (probDisplay (percent rp)) (dom s2)))))).
  { intros v. unfold setDisplay, setProbCircle, setDaysText,
      setStatusText, setProbText. cbn.
    now rewrite Hp, Hs, Hd, Hc, Hk, Ht, Hl. }
  destruct (readingsList (dom s2)) as [l0|] eqn:L2.
  - destruct (renderList data) as [lr [[]|e]]; unfold sameButStatus; cbn;
      rewrite Hp, Hs, Hd, Hc, Hk, Ht, ?Hv, ?Hl, ?L2;
      repeat split; auto; try solve [intros [=]].
  - unfold sameButStatus. cbn. rewrite Hp, Hs, Hd, Hc, Hk, Ht, ?Hl, ?L2, ?Hv.
    repeat split; auto.
Qed.

Lemma showError_dom (msg : string) (s1 s2 : State) :
  sameButStatus s1 s2 \/ dom s1 = dom s2 ->
  dom (showError msg s1) = dom (showError msg s2).
Proof.
  intros [(_ & _ & Hp & Hs & Hd & Hc & Hl & Hk & Ht) | H]; cbn.
  - now rewrite Hp, Hs, Hd, Hc, Hl, Hk, Ht.
  - now rewrite H.
Qed.

(** A poll from two states that differ at most in the status text and the
    console leaves the same page and the same globals. *)
Lemma fetchLatest_sameButStatus (f : FetchResult) (s1 s2 : State) :
  sameButStatus s1 s2 ->
  dom (fetchLatest f s1) = dom (fetchLatest f s2) /\
  lastData (fetchLatest f s1) = lastData (fetchLatest f s2) /\
  readingsVisible (fetchLatest f s1) = readingsVisible (fetchLatest f s2).
Proof.
  intros S. pose proof S as (Hd0 & Hv & Hp & Hs & Hd & Hc & Hl & Hk & Ht).
  unfold fetchLatest, caught.
  destruct f as [err|r].
  - split; [|cbn; auto]. apply showError_dom. left.
    repeat split; cbn; auto.
  - destruct (status r =? 204)%nat.
    { cbn. now rewrite Hp, Hs, Hd, Hc, Hl, Hk, Ht. }
    destruct (negb (ok r)).
    { split; [|cbn; auto]. apply showError_dom. left.
      repeat split; cbn; auto. }
    destruct (body r) as [data|err].
    2:{ split; [|cbn; auto]. apply showError_dom. left.
        repeat split; cbn; auto. }
    assert (S' : sameButStatus (with_lastData data s1) (with_lastData data s2))
      by (repeat split; cbn; auto).
    destruct (updateUI_sameButStatus data _ _ S') as (C & S1 & D).
    destruct (updateUI_globals data (with_lastData data s1)) as (L1 & V1 & _).
    destruct (updateUI_globals data (with_lastData data s2)) as (L2 & V2 & _).
    destruct (updateUI data (with_lastData data s1)) as [s1' c1].
    destruct (updateUI data (with_lastData data s2)) as [s2' c2].
    cbn [fst snd lastData readingsVisible with_lastData] in *. subst c2.
    destruct c1 as [[]|err].
    + repeat split; try congruence. now apply D.
    + split.
      * apply showError_dom. left.
        destruct S1 as (A1 & A2 & A3 & A4 & A5 & A6 & A7 & A8 & A9).
        repeat split; cbn; auto.
      * cbn. split; congruence.
Qed.

(** A failed fetch is an error report and a new status text, nothing more. *)
Lemma failed_fetch (f : FetchResult) (s : State) :
  failed f = true ->
  exists msg e,
    isErrorReport e = true /\ fetchLatest f s = showError msg (log e s) /\
    (msg = "Server unreachable" \/
     exists r, f = Resolved r /\ ok r = false /\
               msg = "Server " ++ decimal (status r)).
Proof.
  unfold failed, fetchLatest, caught. destruct f as [err|r].
  - intros _. exists "Server unreachable", (LogException err). auto.
  - destruct (status r =? 204)%nat; [discriminate|]. cbn [negb andb].
    destruct (negb (ok r)) eqn:K.
    + intros _. eexists _, (LogErrorStatus _ _).
      split; [reflexivity|]. split; [reflexivity|]. right. exists r.
      apply negb_true_iff in K. auto.
    + cbn [orb]. destruct (body r) as [data|err]; [discriminate|].
      intros _. exists "Server unreachable", (LogException err). auto.
Qed.


(** C7: a fetch that fails (rejected, non-OK status, or an unparsable body)
    leaves [lastData], [readingsVisible] and every element but the status
    text as they were, and the poll that follows ends as it would have
    without the failure; when that poll succeeds it stores its data. *)
Theorem C7_failed_fetch_is_contained (f : FetchResult) (s : State) :
  failed f = true ->
  let s' := fetchLatest f s in
  lastData s' = lastData s /\
  readingsVisible s' = readingsVisible s /\
  sameButStatus s' s /\
  (forall next : FetchResult,
     dom (fetchLatest next s') = dom (fetchLatest next s) /\
     lastData (fetchLatest next s') = lastData (fetchLatest next s) /\
     readingsVisible (fetchLatest next s') =
       readingsVisible (fetchLatest next s)) /\
  (forall r data,
     (status r =? 204)%nat = false -> ok r = true -> body r = Normal data ->
     lastData (fetchLatest (Resolved r) s') = data).
Proof.
  intros F s'. subst s'.
  destruct (failed_fetch f s F) as (msg & e & _ & -> & _).
  assert (S : sameButStatus (showError msg (log e s)) s).
  { repeat split; cbn; auto. intros x. apply assign_assign. }
  repeat split; try apply S; try (apply fetchLatest_sameButStatus; exact S).
  intros r data H204 Hok Hb. cbn [fetchLatest].
  rewrite H204, Hok, Hb. cbn [negb].
  destruct (updateUI_globals data (with_lastData data (showError msg (log e s))))
    as (L & _ & _).
  destruct (updateUI data (with_lastData data (showError msg (log e s))))
    as [s1 [u|err]]; cbn [fst] in L; cbn; exact L.
Qed.

End Rendering.

Section Repainting.
Context {E : Engine}.

Lemma setters_twice (d : Dom) (a b c e : string) :
  setProbText a (setProbText a d) = setProbText a d /\
  setStatusText b (setProbText a (setStatusText b (setProbText a d)))
    = setStatusText b (setProbText a d) /\
  (forall l v,
     setDisplay v (setList l
       (setProbCircle e (setDaysText c (setStatusText b (setProbText a
          (setDisplay v (setList l
             (setProbCircle e (setDaysText c
                (setStatusText b (setProbText a d)))))))))))
     = setDisplay v (setList l
         (setProbCircle e (setDaysText c
            (setStatusText b (setProbText a d)))))) /\
  (forall l,
     setList l
       (setProbCircle e (setDaysText c (setStatusText b (setProbText a
          (setList l
             (setProbCircle e (setDaysText c
                (setStatusText b (setProbText a d)))))))))
     = setList l
         (setProbCircle e (setDaysText c
            (setStatusText b (setProbText a d))))) /\
  (forall v,
     setDisplay v
       (setProbCircle e (setDaysText c (setStatusText b (setProbText a
          (setDisplay v
             (setProbCircle e (setDaysText c
                (setStatusText b (setProbText a d)))))))))
     = setDisplay v
         (setProbCircle e (setDaysText c
            (setStatusText b (setProbText a d))))).
Proof.
  destruct d as [f1 f2 f3 f4 f5 f6 f7].
  cbv [setDisplay setList setProbCircle setDaysText setStatusText setProbText
       probText statusText daysText probCircle readingsList
       sensorReadingsContainer toggleReadingsBtn].
  repeat split; intros; now rewrite !assign_assign.
Qed.

(** Painting the same data again changes nothing on the page. *)
Lemma updateUI_twice (data : json) (s : State) :
  let s1 := fst (updateUI data s) in
  dom (fst (updateUI data s1)) = dom s1 /\
  snd (updateUI data s1) = snd (updateUI data s).
Proof.
  destruct (isObject data) eqn:O.
  2:{ unfold updateUI. rewrite isObject_guard, O. cbn.
      rewrite !assign_assign. auto. }
  unfold updateUI. rewrite isObject_guard, O. cbn [negb].
  destruct (rawProb data) as [rp|e]; [|cbn; auto].
  change (statusText (setProbText (probDisplay (percent rp)) (dom s)))
    with (statusText (dom s)).
  destruct (setters_twice (dom s) (probDisplay (percent rp)) "" ""
              (gradient (percent rp))) as (T1 & _).
  destruct (if onPage (statusText (dom s)) then statusDisplay data
            else Normal "") as [st|e] eqn:St.
  2:{ cbn [fst snd dom with_dom]. cbn [statusText setProbText].
      rewrite St. cbn [fst snd dom with_dom]. auto. }
  destruct (daysDisplay data rp) as [days|e] eqn:Dd.
  2:{ cbn [fst snd dom with_dom]. cbn [statusText setStatusText setProbText].
      assert (Ho : forall x, onPage (assign (statusText (dom s)) x)
                             = onPage (statusText (dom s)))
        by (intros x; now destruct (statusText (dom s))).
      rewrite Ho, St. cbn [fst snd dom with_dom].
      destruct (setters_twice (dom s) (probDisplay (percent rp)) st ""
                  (gradient (percent rp))) as (_ & T2 & _).
      auto. }
  destruct (setters_twice (dom s) (probDisplay (percent rp)) st days
              (gradient (percent rp))) as (_ & _ & T3 & T4 & T5).
  assert (Ho : forall x, onPage (assign (statusText (dom s)) x)
                         = onPage (statusText (dom s)))
    by (intros x; now destruct (statusText (dom s))).
  cbn [readingsList setProbCircle setDaysText setStatusText setProbText].
  destruct (readingsList (dom s)) as [l0|] eqn:L.
  - destruct (renderList data) as [lr [[]|e]] eqn:R;
      cbn [fst snd dom with_dom readingsVisible];
      cbn [statusText readingsList setDisplay setList setProbCircle
           setDaysText setStatusText setProbText];
      rewrite ?Ho, ?St, ?L; cbn [assign fst snd dom with_dom]; auto.
  - cbn [fst snd dom with_dom readingsVisible];
      cbn [statusText readingsList setDisplay setList setProbCircle
           setDaysText setStatusText setProbText];
      rewrite ?Ho, ?St, ?L; cbn [assign fst snd dom with_dom]; auto.
Qed.

End Repainting.
(* ================================================================== *)
(** ** Properties of the serving layer                                 *)
(* ================================================================== *)

Section Serving.
Variables N_MAX N_VISIBLE : nat.
Variable score : float -> float.

Lemma append_last (cr : Backend.ClassifiedReading)
    (h : list Backend.ClassifiedReading) :
  1 <= N_MAX -> exists older, Backend.append N_MAX cr h = (older ++ [cr])%list.
Proof.
  intros H. unfold Backend.append. rewrite length_app. cbn [List.length].
  rewrite skipn_app.
  replace (List.length h + 1 - N_MAX - List.length h) with 0 by lia.
  cbn [skipn]. eauto.
Qed.

Lemma build_whole (cr : Backend.ClassifiedReading)
    (older : list Backend.ClassifiedReading) :
  1 <= N_VISIBLE -> Backend.classified cr ->
  Backend.whole (Backend.build N_VISIBLE cr (older ++ [cr])).
Proof.
  intros H C. unfold Backend.whole, Backend.build, Backend.snapshotView.
  cbn [Backend.snap_history Backend.snap_probability Backend.snap_status
       Backend.snap_days_left].
  rewrite rev_app_distr. cbn [rev app].
  destruct N_VISIBLE as [|n]; [lia|]. cbn [firstn].
  exists cr, (firstn n (rev older)). repeat split. exact C.
Qed.

Lemma advance_safe (ph : Backend.Phase) (sv : Backend.Server) :
  1 <= N_VISIBLE -> N_VISIBLE <= N_MAX ->
  Backend.safe sv -> Backend.writer sv = Some ph ->
  Backend.safe (Backend.advance N_MAX N_VISIBLE score ph sv).
Proof.
  intros H1 H2 [Hc Hw] W. rewrite W in Hw. unfold Backend.safe.
  destruct ph as [r ts|r ts|r ts p|cr|cr| |err]; cbn.
  - split; [exact Hc|]. now destruct (Backend.validate r).
  - split; [exact Hc|]. now destruct (Backend.in_range (score r)).
  - split; [exact Hc|]. unfold Backend.classified. cbn.
    now destruct (Backend.classify p).
  - split; [exact Hc|]. split; [exact Hw|]. apply append_last. lia.
  - destruct Hw as [C [older Ho]]. split; [|exact I].
    intros sn [= <-]. rewrite Ho. now apply build_whole.
  - split; [exact Hc|exact I].
  - split; [exact Hc|exact I].
Qed.

Lemma step_safe (ev : Backend.Event) (sv : Backend.Server) :
  1 <= N_VISIBLE -> N_VISIBLE <= N_MAX ->
  Backend.safe sv ->
  Backend.safe (fst (Backend.step N_MAX N_VISIBLE score ev sv)) /\
  (forall sn, snd (Backend.step N_MAX N_VISIBLE score ev sv) = Some (Some sn) ->
              Backend.whole sn).
Proof.
  intros H1 H2 S. destruct ev as [r ts| |]; cbn.
  - split; [|discriminate]. exact S.
  - destruct (Backend.writer sv) as [ph|] eqn:W.
    + cbn. split; [|discriminate]. now apply advance_safe.
    + destruct (Backend.waiting sv) as [|[r ts] rest]; cbn;
        (split; [|discriminate]).
      * exact S.
      * destruct S as [Hc _]. split; [exact Hc|exact I].
  - split; [exact S|]. intros sn [= H]. destruct S as [Hc _]. now apply Hc.
Qed.

Lemma run_safe (evs : list Backend.Event) (sv : Backend.Server) :
  1 <= N_VISIBLE -> N_VISIBLE <= N_MAX ->
  Backend.safe sv ->
  Forall (fun reply => match reply with
                       | None => True
                       | Some sn => Backend.whole sn
                       end)
         (snd (Backend.run N_MAX N_VISIBLE score evs sv)).
Proof.
  intros H1 H2. revert sv. induction evs as [|ev rest IH]; intros sv S.
  - constructor.
  - cbn [Backend.run].
    destruct (step_safe ev sv H1 H2 S) as [S1 Hq].
    destruct (Backend.step N_MAX N_VISIBLE score ev sv) as [sv1 reply].
    cbn [fst snd] in *. specialize (IH sv1 S1).
    destruct (Backend.run N_MAX N_VISIBLE score rest sv1) as [sv2 replies].
    cbn [snd] in *.
    destruct reply as [[sn|]|]; [constructor; auto|constructor; auto|exact IH].
Qed.

(** C6: under any interleaving of arrivals, ingestion steps and queries,
    a query returns NoData or a whole Snapshot: its first history entry is
    the reading its probability, status and days-left belong to.  Between
    the append and the publication a query still gets the previous
    Snapshot, whole as well. *)
Theorem C6_no_torn_snapshot (evs : list Backend.Event) :
  1 <= N_VISIBLE -> N_VISIBLE <= N_MAX ->
  Forall (fun reply => match reply with
                       | None => True
                       | Some sn => Backend.whole sn
                       end)
         (snd (Backend.run N_MAX N_VISIBLE score evs Backend.init)).
Proof.
  intros H1 H2. apply run_safe; auto.
  split; [discriminate|exact I].
Qed.

Lemma run_queries (n : nat) (sv : Backend.Server) :
  Backend.run N_MAX N_VISIBLE score (repeat Backend.Query n) sv =
  (sv, repeat (Backend.getLatest sv) n).
Proof.
  induction n as [|n IH]; [reflexivity|].
  cbn [repeat Backend.run Backend.step]. now rewrite IH.
Qed.

(** C8: queries with no ingestion step between them all return the same
    Snapshot and leave the server as it was; and painting the same data a
    second time leaves the page as the first painting made it, with the
    same completion. *)
Theorem C8_reads_are_idempotent {E : Engine} (n : nat) (sv : Backend.Server)
    (data : json) (s : State) :
  Backend.run N_MAX N_VISIBLE score (repeat Backend.Query n) sv =
    (sv, repeat (Backend.getLatest sv) n) /\
  (let s1 := fst (updateUI data s) in
   dom (fst (updateUI data s1)) = dom s1 /\
   snd (updateUI data s1) = snd (updateUI data s) /\
   lastData s1 = lastData s /\
   readingsVisible s1 = readingsVisible s).
Proof.
  split; [apply run_queries|].
  destruct (updateUI_twice data s) as [A B].
  destruct (updateUI_globals data s) as (L & V & _).
  cbv zeta. auto.
Qed.

End Serving.

(* ================================================================== *)
(** ** The properties at concrete inputs                               *)
(* ================================================================== *)

(** The days text at and next to the thresholds. *)
Example daysDisplay_at_thresholds :
  map (fun p => daysDisplay (JObject []) (Some p))
      [1; 0.95; 0.9499; 0.75; 0.7499; 0.6; 0.5999; 0.4; 0.3999; 0]%float
  = map Normal
      ["0 days"; "0 days"; "1 day"; "1 day"; "2 days"; "2 days"; "3 days";
       "3 days"; "-- days"; "-- days"].
Proof. reflexivity. Qed.





(** A history sent oldest first is shown most recent first. *)
Lemma C3_list_shows_history_reversed_at_two :
  let older := reading 800 "2025-01-01 10:00" in
  let newer := reading 823 "2025-01-01 10:06" in
  let data := JObject [("history", JArray [older; newer])] in
  exists l,
    readingsList (dom (fst (updateUI data (initState fullDom)))) = Some l /\
    Forall2 (fun h el => renderItem h = Normal el) [newer; older] (appended l).
Proof.
  intros older newer data.
  apply (C3_list_shows_history_reversed data (initState fullDom)
           [older; newer] {| markup := ""; appended := [] |}).
  - reflexivity.
  - reflexivity.
  - repeat constructor.
  - reflexivity.
Defined.

(** C3 as stated fails: of a history sent most recent first, the entry shown
    first is the oldest one, not the most recent. *)
Lemma C3_most_recent_first_is_shown_oldest_first :
  let newest := reading 823 "2025-01-01 10:06" in
  let oldest := reading 800 "2025-01-01 10:00" in
  let data := JObject [("history", JArray [newest; oldest])] in
  exists l el,
    readingsList (dom (fst (updateUI data (initState fullDom)))) = Some l /\
    hd_error (appended l) = Some el /\
    renderItem oldest = Normal el /\
    renderItem newest <> Normal el.
Proof.
  intros newest oldest data. eexists. eexists.
  split; [reflexivity|]. split; [reflexivity|]. split; [reflexivity|].
  discriminate.
Qed.



(** A list left by a good poll stays within 12 entries through a body of 13
    readings and one that [updateUI] cannot convert. *)
Lemma C5_at_most_12_entries_at_run :
  let thirteen := JObject [("history",
                    JArray (map (fun r => reading r "t")
                      [1; 2; 3; 4; 5; 6; 7; 8; 9; 10; 11; 12; 13]%float))] in
  let bad := JObject [("probability", hidesToString)] in
  let poll data := Settled (Resolved {| status := 200; text := Normal "";
                                        body := Normal data |}) in
  listBounded (dom (run [poll thirteen; poll bad] (initState fullDom))).
Proof.
  intros thirteen bad poll.
  apply (proj2 (C5_at_most_12_entries JNull (initState fullDom))).
  split; [cbn; lia|now left].
Defined.

(** After a good poll, a 503 response leaves [lastData] as it was. *)
Lemma C7_failed_fetch_is_contained_at_503 :
  let good := {| status := 200; text := Normal "";
                 body := Normal (JObject [("probability", JNumber 0.97);
                                          ("status", JString "Detected")]) |} in
  let bad := {| status := 503; text := Normal "Service Unavailable";
                body := Throw SyntaxError |} in
  let s := fetchLatest (Resolved good) (initState fullDom) in
  failed (Resolved bad) = true /\
  lastData (fetchLatest (Resolved bad) s) = lastData s.
Proof.
  intros good bad s. split; [reflexivity|].
  exact (proj1 (C7_failed_fetch_is_contained (Resolved bad) s eq_refl)).
Defined.

(** A schedule with a query before, inside and after an ingestion, for
    [N_MAX = N_VISIBLE = 12]. *)
Lemma C6_no_torn_snapshot_at_12 :
  Forall (fun reply => match reply with
                       | None => True
                       | Some sn => Backend.whole sn
                       end)
         (snd (Backend.run 12 12 (fun r => (r / 1000)%float)
                 [Backend.Arrive 823 "t1"; Backend.Query;
                  Backend.Advance; Backend.Advance; Backend.Advance;
                  Backend.Advance; Backend.Advance; Backend.Query;
                  Backend.Advance; Backend.Query]
                 Backend.init)).
Proof.
  apply (C6_no_torn_snapshot 12 12); lia.
Defined.
(* ================================================================== *)
(** ** More on [updateUI]                                              *)
(* ================================================================== *)

Section Painting.
Context {E : Engine}.

(** The loop returns exactly when every entry it goes through can be
    rendered; otherwise it throws a TypeError. *)
Lemma appendItems_completion (show : list json) (l : ListEl) :
  snd (appendItems show l) =
  if forallb renderable show then Normal tt else Throw TypeError.
Proof.
  revert l. induction show as [|h rest IH]; intros l; [reflexivity|].
  cbn [appendItems forallb]. pose proof (renderItem_spec h) as S.
  destruct (renderable h); cbn [andb].
  - destruct S as [el ->]. apply IH.
  - now rewrite S.
Qed.

Lemma renderList_completion (data : json) :
  snd (renderList data) =
  if forallb renderable (shown data) then Normal tt else Throw TypeError.
Proof.
  rewrite renderList_shown.
  destruct (shown data) as [|h0 tl]; [reflexivity|].
  apply appendItems_completion.
Qed.

Lemma shown_not_object (data : json) : isObject data = false -> shown data = [].
Proof.
  intros O. unfold shown. destruct data; try reflexivity; discriminate.
Qed.

(** How [updateUI] completes, from the data and the elements on the page. *)
Lemma updateUI_completion (data : json) (s : State) :
  snd (updateUI data s) =
  if throws (onPage (statusText (dom s))) (onPage (readingsList (dom s))) data
  then Throw TypeError else Normal tt.
Proof.
  unfold throws. destruct (isObject data) eqn:O; cbn [andb].
  - destruct (headOk (onPage (statusText (dom s))) data) eqn:H; cbn [negb orb].
    + destruct (headOk_ok _ _ H) as ([rp P] & [st S] & D).
      destruct (D rp) as [days Dd].
      destruct (updateUI_painted data s rp st days O P S Dd)
        as (_ & _ & _ & _ & _ & _ & _ & ->).
      destruct (readingsList (dom s)); cbn [onPage andb]; [|reflexivity].
      rewrite renderList_completion.
      now destruct (forallb renderable (shown data)).
    + now destruct (updateUI_head_throws data s O H) as (-> & _).
  - unfold updateUI. now rewrite isObject_guard, O.
Qed.

(** A list with an entry that cannot be rendered splits at its first one. *)
Lemma split_at_unrenderable (l : list json) :
  forallb renderable l = false ->
  exists good bad rest,
    l = (good ++ bad :: rest)%list /\
    Forall (fun h => renderable h = true) good /\ renderable bad = false.
Proof.
  induction l as [|h tl IH]; cbn [forallb]; [discriminate|].
  destruct (renderable h) eqn:R; cbn [andb].
  - intros H. destruct (IH H) as (good & bad & rest & -> & F & B).
    exists (h :: good), bad, rest. split; [reflexivity|].
    split; [now constructor|exact B].
  - intros _. exists [], h, tl. split; [reflexivity|]. split; [constructor|exact R].
Qed.

(** The loop stops at the first entry it cannot render, with the entries
    before it appended. *)
Lemma appendItems_stops (good rest : list json) (bad : json) (l : ListEl) :
  Forall (fun h => renderable h = true) good ->
  renderable bad = false ->
  exists els,
    appendItems (good ++ bad :: rest) l =
      ({| markup := markup l; appended := (appended l ++ els)%list |},
       Throw TypeError) /\
    Forall2 (fun h el => renderItem h = Normal el) good els.
Proof.
  intros F B. revert l. induction F as [|h tl Hh F IH]; intros l.
  - exists []. cbn [app appendItems]. rewrite (renderItem_throws bad B).
    rewrite app_nil_r. destruct l. split; [reflexivity|constructor].
  - destruct (renderItem_ok h Hh) as [el Hel].
    destruct (IH {| markup := markup l;
                    appended := (appended l ++ [el])%list |}) as [els [A C]].
    exists (el :: els). cbn [app appendItems]. rewrite Hel, A.
    cbn [markup appended]. rewrite <- app_assoc.
    split; [reflexivity|now constructor].
Qed.

(** X1: [updateUI] returns or throws a TypeError, and it throws exactly when
    the data is an array or an object and either one of the conversions
    before the list fails (of the probability, of the status on a page with
    [#statusText], of [days_left]), or [#readingsList] is on the page and
    one of the entries the loop goes through cannot be rendered (it is
    [null], or its timestamp or resistance cannot be converted). *)
Theorem updateUI_throws_iff (data : json) (s : State) :
  (snd (updateUI data s) = Normal tt \/
   snd (updateUI data s) = Throw TypeError) /\
  (snd (updateUI data s) = Throw TypeError <->
   isObject data = true /\
   (headOk (onPage (statusText (dom s))) data = false \/
    onPage (readingsList (dom s)) = true /\
    exists h, In h (shown data) /\ renderable h = false)).
Proof.
  rewrite updateUI_completion. unfold throws.
  destruct (isObject data); cbn [andb].
  2:{ split; [now left|]. split; [discriminate|]. intros [[=] _]. }
  destruct (headOk (onPage (statusText (dom s))) data); cbn [negb orb].
  2:{ split; [now right|]. split; auto. }
  destruct (onPage (readingsList (dom s))); cbn [andb].
  2:{ split; [now left|]. split; [discriminate|].
      intros [_ [[=] | [[=] _]]]. }
  destruct (forallb renderable (shown data)) eqn:F; cbn [negb].
  - split; [now left|]. split; [discriminate|].
    intros [_ [[=] | [_ (h & Hin & Hr)]]].
    rewrite forallb_forall in F. rewrite (F h Hin) in Hr. discriminate.
  - split; [now right|]. split; [|reflexivity]. intros _.
    split; [reflexivity|]. right. split; [reflexivity|].
    destruct (split_at_unrenderable _ F) as (good & bad & rest & -> & _ & B).
    exists bad. split; [|exact B]. apply in_or_app. right. now left.
Qed.

(** X2: when the conversions before the list succeed and an entry the loop
    goes through cannot be rendered, the entries before the first such entry
    stay appended to the emptied list and the days text and the ring are
    already painted, but the container's display is not refreshed, and
    [updateUI] throws a TypeError. *)
Theorem updateUI_paints_up_to_bad_entry (data : json) (s : State)
    (good rest : list json) (bad : json) (l0 : ListEl) :
  shown data = (good ++ bad :: rest)%list ->
  Forall (fun h => renderable h = true) good ->
  renderable bad = false ->
  headOk (onPage (statusText (dom s))) data = true ->
  readingsList (dom s) = Some l0 ->
  let s' := fst (updateUI data s) in
  (exists els,
     readingsList (dom s') = Some {| markup := ""; appended := els |} /\
     Forall2 (fun h el => renderItem h = Normal el) good els) /\
  (exists rp days,
     rawProb data = Normal rp /\ daysDisplay data rp = Normal days /\
     daysText (dom s') = assign (daysText (dom s)) days /\
     probCircle (dom s') = assign (probCircle (dom s)) (gradient (percent rp))) /\
  sensorReadingsContainer (dom s') = sensorReadingsContainer (dom s) /\
  snd (updateUI data s) = Throw TypeError.
Proof.
  intros Hs F B H Hl s'.
  assert (O : isObject data = true).
  { destruct (isObject data) eqn:O; [reflexivity|].
    rewrite (shown_not_object _ O) in Hs. now destruct good. }
  assert (T : snd (updateUI data s) = Throw TypeError).
  { rewrite updateUI_completion. unfold throws.
    rewrite O, H, Hl, Hs. cbn [onPage andb negb orb].
    rewrite forallb_app. cbn [forallb]. rewrite B.
    now rewrite andb_false_r. }
  destruct (headOk_ok _ _ H) as ([rp P] & [st S] & D).
  destruct (D rp) as [days Dd].
  destruct (updateUI_painted data s rp st days O P S Dd)
    as (_ & _ & Hd & Hc & _ & Hr & Hk & _).
  subst s'. rewrite T in Hk. rewrite Hl in Hr.
  split; [|split; [exists rp, days; auto|split; [exact Hk|exact T]]].
  destruct (appendItems_stops good rest bad {| markup := ""; appended := [] |}
              F B) as (els & A & C).
  exists els. split; [|exact C].
  rewrite Hr, renderList_shown, Hs.
  destruct (good ++ bad :: rest)%list eqn:G.
  { now destruct good. }
  now rewrite A.
Qed.

(** X3: when the conversions before the list succeed and the last 12 entries
    of a history of [n] entries can be rendered, the list shows the last
    [min 12 n], last entry first, and [updateUI] returns; the entries before
    them are not looked at, so a [null] among those does no harm. *)
Theorem updateUI_shows_last_12 (data : json) (s : State)
    (items : list json) (l0 : ListEl) :
  getProp "history" data = Some (JArray items) ->
  headOk (onPage (statusText (dom s))) data = true ->
  Forall (fun h => renderable h = true)
         (skipn (List.length items - 12) items) ->
  readingsList (dom s) = Some l0 ->
  exists l,
    readingsList (dom (fst (updateUI data s))) = Some l /\
    List.length (appended l) = Nat.min 12 (List.length items) /\
    Forall2 (fun h el => renderItem h = Normal el)
            (rev (skipn (List.length items - 12) items)) (appended l) /\
    snd (updateUI data s) = Normal tt.
Proof.
  intros Hh H F Hl.
  destruct (getProp_object _ _ _ Hh) as [props ->].
  assert (Hs : shown (JObject props)
               = rev (skipn (List.length items - 12) items)).
  { unfold shown. rewrite Hh. apply firstn_rev. }
  assert (F' : Forall (fun h => renderable h = true) (shown (JObject props))).
  { rewrite Hs. now apply Forall_rev. }
  destruct (headOk_ok _ _ H) as ([rp P] & [st S] & D).
  destruct (D rp) as [days Dd].
  destruct (updateUI_painted (JObject props) s rp st days eq_refl P S Dd)
    as (_ & _ & _ & _ & _ & Hr & _ & Hc).
  rewrite Hl in Hr, Hc. rewrite Hr, Hc, renderList_shown.
  assert (Hlen : List.length (shown (JObject props))
                 = Nat.min 12 (List.length items)).
  { unfold shown. rewrite Hh, length_firstn, length_rev. reflexivity. }
  destruct (shown (JObject props)) as [|h0 tl] eqn:S0.
  - eexists. cbn [fst snd appended]. rewrite <- Hs.
    repeat split; [exact Hlen|constructor].
  - destruct (appendItems_all _ {| markup := ""; appended := [] |} F')
      as (els & A & B).
    rewrite A. eexists. cbn [fst snd appended app].
    repeat split; [|now rewrite <- Hs].
    rewrite <- Hlen. symmetry. eapply Forall2_length; eauto.
Qed.

(** The percentage is a number whenever there is one: rounding a probability
    that is not [NaN], times 100, never gives [NaN]. *)
Lemma percent_not_nan (data : json) (rp : option float) (n : float) :
  rawProb data = Normal rp -> percent rp = Some n -> PrimFloat.is_nan n = false.
Proof.
  intros R. unfold percent. destruct rp as [p|]; [|discriminate].
  intros [= <-]. apply Math_round_not_nan, mul_100_not_nan.
  eapply rawProb_not_nan; eauto.
Qed.

(** A probability that is missing or null gives no [rawProb]. *)
Lemma rawProb_absent (data : json) :
  present (getProp "probability" data) = false -> rawProb data = Normal None.
Proof.
  unfold rawProb. destruct (getProp "probability" data) as [v|]; [|reflexivity].
  now intros ->.
Qed.

(** X4: when the conversions before the ring succeed, the ring is painted with
    an angle of 3.6 times [c], where [c] lies between 0 and 100: with no
    percentage (the probability is missing, null or converts to [NaN]) [c]
    is 0, and otherwise [c] is the percentage, which is never [NaN],
    clamped to 0 and 100 (so 7, -3 or Infinity as the probability stay
    within the ring). *)
Theorem ring_angle_is_clamped (data : json) (s : State) :
  isObject data = true ->
  headOk (onPage (statusText (dom s))) data = true ->
  exists (rp : option float) (c : float),
    rawProb data = Normal rp /\
    (present (getProp "probability" data) = false -> rp = None) /\
    match percent rp with
    | None => c = 0%float
    | Some n =>
        PrimFloat.is_nan n = false /\ c = Math_min 100 (Math_max 0 n)
    end /\
    (0 <=? c)%float = true /\ (c <=? 100)%float = true /\
    probCircle (dom (fst (updateUI data s))) =
      assign (probCircle (dom s))
        ("conic-gradient(var(--accent) " ++ Number_toString (c * 3.6) ++
         "deg, rgba(0,0,0,0.06) " ++ Number_toString (c * 3.6) ++ "deg)").
Proof.
  intros O H.
  destruct (headOk_ok _ _ H) as ([rp P] & [st S] & D).
  destruct (D rp) as [days Dd].
  destruct (updateUI_painted data s rp st days O P S Dd)
    as (_ & _ & _ & Hc & _).
  rewrite Hc. unfold gradient, deg.
  assert (A0 : present (getProp "probability" data) = false -> rp = None).
  { intros A. rewrite (rawProb_absent _ A) in P. congruence. }
  destruct (percent rp) as [n|] eqn:Pc.
  - pose proof (percent_not_nan _ _ _ P Pc) as Hn.
    destruct (Math_max_0 n Hn) as [A B].
    destruct (Math_min_100 _ A B) as [C F].
    exists rp, (Math_min 100 (Math_max 0 n)). rewrite Pc.
    repeat split; assumption.
  - exists rp, 0%float. rewrite Pc. repeat split; assumption.
Qed.

(** X5: a body that parses to something other than an array or an object
    ([null], a number, a string, a boolean) is stored in [lastData], noted on
    the console, and leaves the page as a 204 response does; it is no
    error. *)
Theorem non_object_body_shows_waiting (f : FetchResult) (data : json)
    (s : State) :
  delivered f = Some data ->
  isObject data = false ->
  let s' := fetchLatest f s in
  dom s' = dom (showWaiting s) /\
  lastData s' = data /\
  console s' = (console s ++ [LogInvalidData data])%list /\
  ~ reportsError s s'.
Proof.
  intros D O s'. subst s'.
  unfold delivered in D. destruct f as [err|r]; [discriminate|].
  unfold fetchLatest.
  destruct (status r =? 204)%nat; [discriminate|].
  destruct (negb (ok r)); [discriminate|].
  destruct (body r) as [d|err]; [|discriminate].
  injection D as ->.
  unfold updateUI. rewrite isObject_guard, O. cbn. repeat split.
  intros [e [He Herr]]. cbn in He. apply app_inv_head in He.
  injection He as <-. discriminate.
Qed.

(** X6: an array, or an object with none of the keys, is painted as an empty
    snapshot: every placeholder, an empty ring, "No readings yet". *)
Theorem keyless_data_paints_placeholders (data : json) (s : State) :
  isObject data = true ->
  (forall k, getProp k data = None) ->
  let d := dom s in
  let s' := fst (updateUI data s) in
  probText (dom s') = assign (probText d) "--%" /\
  statusText (dom s') = assign (statusText d) "—" /\
  daysText (dom s') = assign (daysText d) "-- days" /\
  probCircle (dom s') =
    assign (probCircle d)
      ("conic-gradient(var(--accent) " ++ Number_toString 0 ++
       "deg, rgba(0,0,0,0.06) " ++ Number_toString 0 ++ "deg)") /\
  readingsList (dom s') =
    assign (readingsList d) {| markup := emptyMarkup; appended := [] |} /\
  sensorReadingsContainer (dom s') =
    assign (sensorReadingsContainer d)
           (if readingsVisible s then "block" else "none") /\
  snd (updateUI data s) = Normal tt.
Proof.
  intros O K d s'. subst d s'.
  assert (T : snd (updateUI data s) = Normal tt).
  { rewrite updateUI_completion. unfold throws, headOk, statusOk, shown.
    rewrite O, !K. cbn [convertibleOpt]. rewrite orb_true_r. cbn.
    now rewrite andb_false_r. }
  assert (P : rawProb data = Normal None) by (unfold rawProb; now rewrite K).
  assert (D : daysDisplay data None = Normal "-- days")
    by (unfold daysDisplay; now rewrite K).
  assert (S : exists st,
             (if onPage (statusText (dom s)) then statusDisplay data
              else Normal "") = Normal st /\
             assign (statusText (dom s)) st = assign (statusText (dom s)) "—").
  { unfold statusDisplay. rewrite K. cbn [present].
    destruct (statusText (dom s)); cbn [onPage]; eauto. }
  destruct S as (st & S & Hst).
  destruct (updateUI_painted data s None st "-- days" O P S D)
    as (Hp & Hs & Hd & Hc & _ & Hr & Hk & _).
  rewrite T in Hk.
  rewrite Hp, Hs, Hd, Hc, Hr, Hk, Hst.
  repeat split; try exact T.
  rewrite renderList_shown. unfold shown. rewrite K. cbn.
  now destruct (readingsList (dom s)).
Qed.

(** X7: after a painting that returns, nothing of what the page showed before is
    left: two pages with the same elements look the same. *)
Theorem updateUI_leaves_nothing_stale (data : json) (s1 s2 : State) :
  isObject data = true ->
  sameShape (dom s1) (dom s2) ->
  readingsVisible s1 = readingsVisible s2 ->
  snd (updateUI data s1) = Normal tt ->
  dom (fst (updateUI data s1)) = dom (fst (updateUI data s2)).
Proof.
  intros O (Sp & Ss & Sd & Sc & Sl & Sk & St) V T1.
  assert (T2 : snd (updateUI data s2) = Normal tt).
  { rewrite updateUI_completion in *. now rewrite <- Ss, <- Sl. }
  assert (H : headOk (onPage (statusText (dom s1))) data = true).
  { rewrite updateUI_completion in T1. unfold throws in T1. rewrite O in T1.
    destruct (headOk (onPage (statusText (dom s1))) data);
      [reflexivity|discriminate]. }
  destruct (headOk_ok _ _ H) as ([rp P] & [st S1] & D).
  destruct (D rp) as [days Dd].
  pose proof S1 as S2. rewrite Ss in S2.
  destruct (updateUI_painted data s1 rp st days O P S1 Dd)
    as (P1 & A1 & D1 & C1 & B1 & R1 & K1 & _).
  destruct (updateUI_painted data s2 rp st days O P S2 Dd)
    as (P2 & A2 & D2 & C2 & B2 & R2 & K2 & _).
  rewrite T1 in K1. rewrite T2 in K2.
  assert (X : forall (A : Type) (a b : option A) (v : A),
             onPage a = onPage b -> assign a v = assign b v).
  { intros A [a|] [b|] v Hab; cbn in *; congruence. }
  rewrite (X _ _ _ _ Sp) in P1. rewrite (X _ _ _ _ Ss) in A1.
  rewrite (X _ _ _ _ Sd) in D1. rewrite (X _ _ _ _ Sc) in C1.
  rewrite (X _ _ _ _ Sk), V in K1.
  assert (R : readingsList (dom (fst (updateUI data s1)))
              = readingsList (dom (fst (updateUI data s2)))).
  { rewrite R1, R2.
    destruct (readingsList (dom s1)), (readingsList (dom s2));
      cbn in Sl; congruence. }
  destruct (dom (fst (updateUI data s1))), (dom (fst (updateUI data s2))).
  cbn in *. congruence.
Qed.

End Painting.
(* ================================================================== *)
(** ** The toggle, and runs of events                                  *)
(* ================================================================== *)

Section Wired.
Context {E : Engine}.

(** What no painting touches: [readingsVisible], the label of the toggle
    button, and which elements are on the page; the container's display is
    left alone or set to what [readingsVisible] says. *)
Lemma updateUI_frame (data : json) (s : State) :
  let s' := fst (updateUI data s) in
  readingsVisible s' = readingsVisible s /\
  toggleReadingsBtn (dom s') = toggleReadingsBtn (dom s) /\
  onPage (readingsList (dom s')) = onPage (readingsList (dom s)) /\
  onPage (statusText (dom s')) = onPage (statusText (dom s)) /\
  (sensorReadingsContainer (dom s') = sensorReadingsContainer (dom s) \/
   sensorReadingsContainer (dom s') =
     assign (sensorReadingsContainer (dom s))
            (if readingsVisible s then "block" else "none")).
Proof.
  assert (A : forall (T : Type) (el : option T) (v : T),
             onPage (assign el v) = onPage el)
    by (intros T [x|] v; reflexivity).
  updateUI_paths data s; cbn; rewrite ?L, ?A; cbn; auto 6.
Qed.

Lemma fetchLatest_frame (f : FetchResult) (s : State) :
  let s' := fetchLatest f s in
  readingsVisible s' = readingsVisible s /\
  toggleReadingsBtn (dom s') = toggleReadingsBtn (dom s) /\
  onPage (readingsList (dom s')) = onPage (readingsList (dom s)) /\
  onPage (statusText (dom s')) = onPage (statusText (dom s)) /\
  (sensorReadingsContainer (dom s') = sensorReadingsContainer (dom s) \/
   sensorReadingsContainer (dom s') =
     assign (sensorReadingsContainer (dom s))
            (if readingsVisible s then "block" else "none")).
Proof.
  assert (A : forall (T : Type) (el : option T) (v : T),
             onPage (assign el v) = onPage el)
    by (intros T [x|] v; reflexivity).
  unfold fetchLatest, caught. destruct f as [err|r]; [cbn; rewrite A; auto 6|].
  destruct (status r =? 204)%nat; [cbn; rewrite !A; auto 6|].
  destruct (negb (ok r)); [cbn; rewrite A; auto 6|].
  destruct (body r) as [data|err]; [|cbn; rewrite A; auto 6].
  pose proof (updateUI_frame data (with_lastData data s)) as F.
  destruct (updateUI data (with_lastData data s)) as [s1 [u|err]];
    cbn in F |- *; rewrite ?A; exact F.
Qed.

Lemma toggleReadings_onPage (s : State) :
  hasToggle (dom (toggleReadings s)) = hasToggle (dom s) /\
  onPage (readingsList (dom (toggleReadings s))) = onPage (readingsList (dom s)) /\
  onPage (statusText (dom (toggleReadings s))) = onPage (statusText (dom s)).
Proof.
  unfold toggleReadings, hasToggle.
  destruct (toggleReadingsBtn (dom s)) eqn:B,
           (sensorReadingsContainer (dom s)) eqn:C;
    cbn; rewrite ?B, ?C; auto.
Qed.

Lemma handle_onPage (ev : Event) (s : State) :
  hasToggle (dom (handle ev s)) = hasToggle (dom s) /\
  onPage (readingsList (dom (handle ev s))) = onPage (readingsList (dom s)) /\
  onPage (statusText (dom (handle ev s))) = onPage (statusText (dom s)).
Proof.
  destruct ev as [f|]; [|apply toggleReadings_onPage].
  cbn [handle]. destruct (fetchLatest_frame f s) as (_ & B & L & S & K).
  split; [|split; [exact L|exact S]]. unfold hasToggle. rewrite B. f_equal.
  destruct K as [-> | ->]; [reflexivity|].
  now destruct (sensorReadingsContainer (dom s)).
Qed.

Lemma run_onPage (evs : list Event) (s : State) :
  hasToggle (dom (run evs s)) = hasToggle (dom s) /\
  onPage (readingsList (dom (run evs s))) = onPage (readingsList (dom s)) /\
  onPage (statusText (dom (run evs s))) = onPage (statusText (dom s)).
Proof.
  revert s. induction evs as [|ev rest IH]; intros s; [repeat split|].
  change (run (ev :: rest) s) with (run rest (handle ev s)).
  destruct (IH (handle ev s)) as (A & B & C).
  destruct (handle_onPage ev s) as (A' & B' & C').
  repeat split; congruence.
Qed.

(** X8: two clicks undo each other, once the display and the label say what
    [readingsVisible] says (as they do after any click). *)
Theorem toggle_twice (s : State) :
  toggleConsistent s -> toggleReadings (toggleReadings s) = s.
Proof.
  destruct s as [ld v d c]. destruct d as [pt st dt pc rl k b].
  unfold toggleConsistent, toggleReadings. cbn. intros [-> ->].
  cbn. rewrite negb_involutive. now destruct v.
Qed.

Lemma handle_consistent (ev : Event) (s : State) :
  toggleConsistent s -> toggleConsistent (handle ev s).
Proof.
  intros [K B]. destruct ev as [f|].
  - cbn [handle]. destruct (fetchLatest_frame f s) as (V & Bf & _ & _ & Kf).
    unfold toggleConsistent. rewrite V, Bf. split; [|exact B].
    destruct Kf as [-> | ->]; [exact K|]. now rewrite K.
  - cbn [handle].
    unfold toggleReadings, toggleConsistent. rewrite K, B. cbn. split; reflexivity.
Qed.

(** X9: once the toggle button has been clicked, the container's display and
    the button's label agree with [readingsVisible] after every further
    event: no poll, whatever it fetches and however it ends, shows a hidden
    list again or hides a shown one. *)
Theorem visibility_survives_polls (evs : list Event) (s : State) :
  hasToggle (dom s) = true ->
  toggleConsistent (run (ToggleClick :: evs) s).
Proof.
  intros H. change (run (ToggleClick :: evs) s) with (run evs (toggleReadings s)).
  assert (C : toggleConsistent (toggleReadings s)).
  { unfold hasToggle in H. unfold toggleReadings, toggleConsistent.
    destruct (toggleReadingsBtn (dom s)), (sensorReadingsContainer (dom s));
      try discriminate. cbn. split; reflexivity. }
  revert C. generalize (toggleReadings s). clear H s.
  induction evs as [|ev rest IH]; intros s C; [exact C|].
  change (run (ev :: rest) s) with (run rest (handle ev s)).
  apply IH. now apply handle_consistent.
Qed.

Lemma handle_visible (ev : Event) (s : State) :
  readingsVisible (handle ev s) =
  match ev with
  | ToggleClick =>
      if hasToggle (dom s) then negb (readingsVisible s) else readingsVisible s
  | Settled _ => readingsVisible s
  end.
Proof.
  destruct ev as [f|]; cbn [handle].
  - now destruct (fetchLatest_frame f s) as (V & _).
  - unfold hasToggle, toggleReadings.
    destruct (toggleReadingsBtn (dom s)), (sensorReadingsContainer (dom s));
      reflexivity.
Qed.

(** X10: over any run, [readingsVisible] is flipped once per click when the
    listener is installed, and by nothing else; on a page without the button
    or the container it never changes. *)
Theorem visible_counts_clicks (evs : list Event) (s : State) :
  readingsVisible (run evs s) =
  if hasToggle (dom s)
  then xorb (readingsVisible s) (Nat.odd (clicks evs))
  else readingsVisible s.
Proof.
  revert s. induction evs as [|ev rest IH]; intros s.
  - cbn. destruct (hasToggle (dom s)); [|reflexivity].
    now rewrite xorb_false_r.
  - change (run (ev :: rest) s) with (run rest (handle ev s)).
    rewrite IH, (proj1 (handle_onPage ev s)), handle_visible.
    destruct ev as [f|]; [reflexivity|].
    destruct (hasToggle (dom s)); [|reflexivity].
    cbn [clicks]. rewrite Nat.odd_succ, <- Nat.negb_odd.
    destruct (readingsVisible s), (Nat.odd (clicks rest)); reflexivity.
Qed.

Lemma fetchLatest_lastData (f : FetchResult) (s : State) :
  lastData (fetchLatest f s) =
  match delivered f with
  | Some data => data
  | None => lastData s
  end.
Proof.
  unfold fetchLatest, delivered, caught. destruct f as [err|r]; [reflexivity|].
  destruct (status r =? 204)%nat; [reflexivity|].
  destruct (negb (ok r)); [reflexivity|].
  destruct (body r) as [data|err]; [|reflexivity].
  destruct (updateUI_globals data (with_lastData data s)) as (L & _).
  destruct (updateUI data (with_lastData data s)) as [s1 [u|err]];
    cbn in L |- *; exact L.
Qed.

(** X11: after any run, [lastData] is the body delivered last: the parsed body of
    the latest OK response other than a 204, whether or not it was an object
    and whether or not painting it threw.  Failed fetches, 204 responses and
    clicks leave it alone; before the first delivery it is [null]. *)
Theorem lastData_is_last_delivered (evs : list Event) (s : State) :
  lastData (run evs s) =
  match lastDelivered evs with
  | Some data => data
  | None => lastData s
  end.
Proof.
  revert s. induction evs as [|ev rest IH]; intros s; [reflexivity|].
  change (run (ev :: rest) s) with (run rest (handle ev s)).
  rewrite IH. cbn [lastDelivered].
  destruct (lastDelivered rest); [reflexivity|].
  destruct ev as [f|]; cbn [handle].
  - apply fetchLatest_lastData.
  - unfold toggleReadings.
    destruct (toggleReadingsBtn (dom s)), (sensorReadingsContainer (dom s));
      reflexivity.
Qed.

(** X12: a 204 response after a body whose probability, status and [days_left]
    could be converted resets the texts and the list but not the ring: the
    ring keeps the angle of the last painting next to "--%", and [lastData]
    keeps the last body. *)
Theorem waiting_keeps_the_ring (f : FetchResult) (r : Response) (data : json)
    (s : State) (rp : option float) :
  delivered f = Some data ->
  isObject data = true ->
  headOk (onPage (statusText (dom s))) data = true ->
  rawProb data = Normal rp ->
  status r = 204 ->
  let s' := fetchLatest (Resolved r) (fetchLatest f s) in
  probText (dom s') = assign (probText (dom s)) "--%" /\
  daysText (dom s') = assign (daysText (dom s)) "-- days" /\
  probCircle (dom s') = assign (probCircle (dom s)) (gradient (percent rp)) /\
  lastData s' = data.
Proof.
  intros D O H P H204 s'. subst s'.
  assert (W : forall st, fetchLatest (Resolved r) st = showWaiting st).
  { intros st. cbn [fetchLatest]. now rewrite H204. }
  rewrite W.
  pose proof (fetchLatest_lastData f s) as L. rewrite D in L.
  unfold delivered in D. destruct f as [err|r0]; [discriminate|].
  unfold fetchLatest in *.
  destruct (status r0 =? 204)%nat; [discriminate|].
  destruct (negb (ok r0)); [discriminate|].
  destruct (body r0) as [d|err]; [|discriminate].
  injection D as ->.
  destruct (headOk_ok _ _ H) as (_ & [st S] & Dd).
  destruct (Dd rp) as [days Dy].
  destruct (updateUI_painted data (with_lastData data s) rp st days O P S Dy)
    as (Hp & _ & Hd & Hc & _).
  destruct (updateUI data (with_lastData data s)) as [s1 [u|err]];
    cbn [fst] in *; cbn in *; rewrite ?Hp, ?Hd, ?Hc, ?assign_assign; auto.
Qed.

Lemma errorReports_snoc (c : list LogEntry) (e : LogEntry) :
  errorReports (c ++ [e]) = errorReports c + (if isErrorReport e then 1 else 0).
Proof.
  unfold errorReports. rewrite filter_app, length_app. cbn.
  now destruct (isErrorReport e).
Qed.

Lemma invalidNotes_snoc (c : list LogEntry) (e : LogEntry) :
  invalidNotes (c ++ [e]) = invalidNotes c + (if isErrorReport e then 0 else 1).
Proof.
  unfold invalidNotes. rewrite filter_app, length_app. cbn.
  now destruct (isErrorReport e).
Qed.

(** The console after [updateUI]: one note more for data that is no
    object. *)
Lemma updateUI_console (data : json) (s : State) :
  console (fst (updateUI data s)) =
  if isObject data then console s
  else (console s ++ [LogInvalidData data])%list.
Proof.
  destruct (updateUI_globals data s) as (_ & _ & C).
  pose proof (updateUI_completion data s) as T. unfold throws in T.
  destruct (isObject data) eqn:O.
  - unfold updateUI. rewrite isObject_guard, O. cbn [negb].
    destruct (rawProb data) as [rp|e]; [|reflexivity].
    destruct (if onPage _ then _ else _) as [st|e]; [|reflexivity].
    destruct (daysDisplay data rp) as [days|e]; [|reflexivity].
    cbn [readingsList setProbCircle setDaysText setStatusText setProbText].
    destruct (readingsList (dom s)); [|reflexivity].
    destruct (renderList data) as [lr [u|e]]; reflexivity.
  - unfold updateUI. rewrite isObject_guard, O. reflexivity.
Qed.

(** What one poll adds to the console. *)
Lemma fetchLatest_console (f : FetchResult) (s : State) :
  errorReports (console (fetchLatest f s)) =
    errorReports (console s) +
    (if endsInError (onPage (statusText (dom s)))
                    (onPage (readingsList (dom s))) f then 1 else 0) /\
  invalidNotes (console (fetchLatest f s)) =
    invalidNotes (console s) +
    (if match delivered f with
        | Some data => negb (isObject data)
        | None => false
        end then 1 else 0).
Proof.
  unfold endsInError, failed, delivered, fetchLatest, caught.
  destruct f as [err|r].
  { cbn [console showError log with_dom].
    rewrite errorReports_snoc, invalidNotes_snoc. unfold errorReports, invalidNotes. cbn. lia. }
  destruct (status r =? 204)%nat; [unfold errorReports, invalidNotes; cbn; lia|]. cbn [negb andb].
  destruct (negb (ok r)).
  { cbn [console showError log with_dom].
    rewrite errorReports_snoc, invalidNotes_snoc. unfold errorReports, invalidNotes. cbn. lia. }
  cbn [orb].
  destruct (body r) as [data|err].
  2:{ cbn [console showError log with_dom].
    rewrite errorReports_snoc, invalidNotes_snoc. unfold errorReports, invalidNotes. cbn. lia. }
  pose proof (updateUI_completion data (with_lastData data s)) as T.
  pose proof (updateUI_console data (with_lastData data s)) as C.
  cbn [dom with_lastData console] in T, C.
  destruct (updateUI data (with_lastData data s)) as [s1 c].
  cbn [fst snd] in T, C. subst c. cbn [orb].
  unfold throws in *.
  destruct (isObject data); cbn [andb negb] in *.
  - destruct (negb (headOk (onPage (statusText (dom s))) data) ||
              onPage (readingsList (dom s)) &&
              negb (forallb renderable (shown data))).
    + cbn [console showError log with_dom].
      rewrite errorReports_snoc, invalidNotes_snoc, C. unfold errorReports, invalidNotes. cbn. lia.
    + rewrite C. unfold errorReports, invalidNotes. cbn. lia.
  - rewrite C, errorReports_snoc, invalidNotes_snoc. unfold errorReports, invalidNotes. cbn. lia.
Qed.

(** X13: over any run, [fetchLatest] reports one error on the console for each
    fetch that ends in [showError] (a failed fetch, or a body on which
    [updateUI] throws), and [updateUI] leaves one invalid-data note for each
    delivered body that is no object; nothing else is written to the
    console: a 204 and a click add nothing. *)
Theorem error_reports_count (evs : list Event) (s : State) :
  let hasStatus := onPage (statusText (dom s)) in
  let hasList := onPage (readingsList (dom s)) in
  errorReports (console (run evs s)) =
    errorReports (console s) + errorsIn hasStatus hasList evs /\
  invalidNotes (console (run evs s)) =
    invalidNotes (console s) + invalidIn evs /\
  List.length (console (run evs s)) =
    List.length (console s) + errorsIn hasStatus hasList evs + invalidIn evs.
Proof.
  intros hasStatus hasList. subst hasStatus hasList.
  assert (Hsum : forall c, List.length c = errorReports c + invalidNotes c).
  { intros c. unfold errorReports, invalidNotes.
    induction c as [|e c IH]; [reflexivity|].
    cbn [filter List.length]. destruct (isErrorReport e); cbn; lia. }
  assert (H : errorReports (console (run evs s)) =
                errorReports (console s) +
                errorsIn (onPage (statusText (dom s)))
                         (onPage (readingsList (dom s))) evs /\
              invalidNotes (console (run evs s)) =
                invalidNotes (console s) + invalidIn evs).
  { revert s. induction evs as [|ev rest IH]; intros s.
    - unfold errorsIn, invalidIn. cbn. lia.
    - change (run (ev :: rest) s) with (run rest (handle ev s)).
      destruct (IH (handle ev s)) as [A B]. rewrite A, B.
      destruct (handle_onPage ev s) as (_ & -> & ->).
      unfold errorsIn, invalidIn. cbn [filter].
      destruct ev as [f|]; cbn [handle].
      + destruct (fetchLatest_console f s) as [-> ->].
        destruct (endsInError _ _ f);
          destruct (match delivered f with
                    | Some data => negb (isObject data)
                    | None => false
                    end); cbn [List.length]; lia.
      + assert (C : console (toggleReadings s) = console s).
        { unfold toggleReadings.
          destruct (toggleReadingsBtn (dom s)),
                   (sensorReadingsContainer (dom s)); reflexivity. }
        rewrite C. lia. }
  destruct H as [A B]. split; [exact A|]. split; [exact B|].
  rewrite !Hsum, A, B. lia.
Qed.

Lemma handle_barePage (ev : Event) (s : State) :
  dom s = barePage -> dom (handle ev s) = barePage.
Proof.
  intros H. destruct ev as [f|]; cbn [handle].
  - unfold fetchLatest, caught. destruct f as [err|r]; [cbn; now rewrite H|].
    destruct (status r =? 204)%nat; [cbn; now rewrite H|].
    destruct (negb (ok r)); [cbn; now rewrite H|].
    destruct (body r) as [data|err]; [|cbn; now rewrite H].
    assert (H' : dom (with_lastData data s) = barePage) by exact H.
    generalize dependent (with_lastData data s). intros s0 H0.
    updateUI_paths data s0; cbn; rewrite ?H0; try reflexivity;
      rewrite H0 in L; discriminate.
  - unfold toggleReadings. now rewrite H.
Qed.

(** X14: on a page with none of the elements the script adds none: after any
    run the page is as bare as before.  The console is kept as on any page:
    an error is reported for each failed fetch and for each body whose
    probability or [days_left] cannot be converted, the only inputs on which
    [updateUI] throws there. *)
Theorem bare_page_stays_bare (evs : list Event) (s : State) :
  dom s = barePage ->
  dom (run evs s) = barePage /\
  errorReports (console (run evs s)) =
    errorReports (console s) +
    List.length
      (filter (fun ev =>
                 match ev with
                 | Settled f =>
                     failed f ||
                     match delivered f with
                     | Some data =>
                         isObject data &&
                         negb (convertibleOpt (getProp "probability" data) &&
                               convertibleOpt (getProp "days_left" data))
                     | None => false
                     end
                 | ToggleClick => false
                 end) evs).
Proof.
  revert s. induction evs as [|ev rest IH]; intros s H.
  - split; [exact H|]. cbn. lia.
  - change (run (ev :: rest) s) with (run rest (handle ev s)).
    destruct (IH (handle ev s) (handle_barePage ev s H)) as [A B].
    split; [exact A|]. rewrite B. cbn [filter].
    destruct ev as [f|]; cbn [handle].
    + rewrite (proj1 (fetchLatest_console f s)), H.
      cbn [barePage readingsList statusText onPage].
      assert (X : endsInError false false f =
                  failed f ||
                  match delivered f with
                  | Some data =>
                      isObject data &&
                      negb (convertibleOpt (getProp "probability" data) &&
                            convertibleOpt (getProp "days_left" data))
                  | None => false
                  end).
      { unfold endsInError, throws, headOk, statusOk.
        destruct (delivered f) as [d|]; [|reflexivity].
        cbn [negb orb andb]. now rewrite andb_true_r, orb_false_r. }
      rewrite X.
      match goal with
      | |- context [if ?b then 1 else 0] =>
          destruct b; cbn [List.length]; lia
      end.
    + unfold toggleReadings. rewrite H. cbn. lia.
Qed.

End Wired.
(* ================================================================== *)
(** ** More properties at concrete inputs                              *)
(* ================================================================== *)

(** An entry whose resistance cannot be converted, second in display order:
    one entry is appended, then the TypeError. *)
Lemma updateUI_paints_up_to_bad_entry_at_three :
  let bad := JObject [("resistance", hidesToString);
                      ("timestamp", JString "09:54")] in
  let data := JObject [("probability", JNumber 0.5);
                       ("history", JArray [reading 790 "09:48"; bad;
                                           reading 823 "10:00"])] in
  let s' := fst (updateUI data (initState fullDom)) in
  shown data = [reading 823 "10:00"; bad; reading 790 "09:48"] /\
  (exists els,
     readingsList (dom s') = Some {| markup := ""; appended := els |} /\
     Forall2 (fun h el => renderItem h = Normal el) [reading 823 "10:00"] els) /\
  sensorReadingsContainer (dom s') = Some "" /\
  snd (updateUI data (initState fullDom)) = Throw TypeError.
Proof.
  intros bad data s'. split; [reflexivity|].
  destruct (updateUI_paints_up_to_bad_entry data (initState fullDom)
              [reading 823 "10:00"] [reading 790 "09:48"] bad
              {| markup := ""; appended := [] |})
    as (A & _ & K & T).
  - reflexivity.
  - repeat constructor.
  - reflexivity.
  - reflexivity.
  - reflexivity.
  - split; [exact A|]. split; [exact K|exact T].
Defined.

(** Thirteen entries, the first of them [null]: twelve are shown and the
    painting returns. *)
Lemma updateUI_shows_last_12_at_13 :
  let items := JNull :: map (fun r => reading r "t")
                          [1; 2; 3; 4; 5; 6; 7; 8; 9; 10; 11; 12]%float in
  let data := JObject [("history", JArray items)] in
  exists l,
    readingsList (dom (fst (updateUI data (initState fullDom)))) = Some l /\
    List.length (appended l) = 12 /\
    snd (updateUI data (initState fullDom)) = Normal tt.
Proof.
  intros items data.
  destruct (updateUI_shows_last_12 data (initState fullDom) items
              {| markup := ""; appended := [] |})
    as (l & A & B & _ & D).
  - reflexivity.
  - reflexivity.
  - repeat constructor.
  - reflexivity.
  - exists l. repeat split; assumption.
Defined.

(** A probability of 7 gives 700 percent and a full ring, no more. *)
Lemma ring_angle_is_clamped_at_7 :
  let data := JObject [("probability", JNumber 7)] in
  exists c : float,
    percent (Some 7%float) = Some 700%float /\
    c = Math_min 100 (Math_max 0 700) /\
    (0 <=? c)%float = true /\ (c <=? 100)%float = true.
Proof.
  intros data.
  destruct (ring_angle_is_clamped data (initState fullDom) eq_refl eq_refl)
    as (rp & c & P & _ & M & A & B & _).
  injection P as <-.
  exists c. split; [reflexivity|]. split; [exact (proj2 M)|].
  split; assumption.
Defined.

(** A 200 response with the body [null] looks like a 204. *)
Lemma non_object_body_shows_waiting_at_null :
  let f := Resolved {| status := 200; text := Normal "null";
                       body := Normal JNull |} in
  let s := initState fullDom in
  dom (fetchLatest f s) = dom (showWaiting s) /\
  console (fetchLatest f s) = [LogInvalidData JNull].
Proof.
  intros f s.
  destruct (non_object_body_shows_waiting f JNull s eq_refl eq_refl)
    as (A & _ & C & _).
  split; [exact A|exact C].
Defined.

(** An array of numbers as the body. *)
Lemma keyless_data_paints_placeholders_at_array :
  let data := JArray [JNumber 1; JNumber 2] in
  let s' := fst (updateUI data (initState fullDom)) in
  probText (dom s') = Some "--%" /\
  statusText (dom s') = Some "—" /\
  daysText (dom s') = Some "-- days" /\
  readingsList (dom s') = Some {| markup := emptyMarkup; appended := [] |}.
Proof.
  intros data s'.
  destruct (keyless_data_paints_placeholders data (initState fullDom) eq_refl)
    as (A & B & C & _ & D & _).
  - intros k. reflexivity.
  - repeat split; assumption.
Defined.

(** Painting over an error message and over an earlier snapshot gives the
    same page. *)
Lemma updateUI_leaves_nothing_stale_at_two :
  let older := JObject [("probability", JNumber 0.2);
                        ("status", JString "Normal");
                        ("history", JArray [reading 610 "09:00"])] in
  let data := JObject [("probability", JNumber 0.97);
                       ("status", JString "Detected");
                       ("history", JArray [reading 823 "10:00"])] in
  let s1 := showError "Server 500" (fst (updateUI older (initState fullDom))) in
  let s2 := initState fullDom in
  dom (fst (updateUI data s1)) = dom (fst (updateUI data s2)).
Proof.
  intros older data s1 s2.
  apply (updateUI_leaves_nothing_stale data s1 s2).
  - reflexivity.
  - repeat split.
  - reflexivity.
  - reflexivity.
Defined.

(** Two more clicks after the first come back to the hidden list. *)
Lemma toggle_twice_at_hidden :
  let s := toggleReadings (initState fullDom) in
  toggleConsistent s /\ toggleReadings (toggleReadings s) = s.
Proof.
  intros s.
  assert (C : toggleConsistent s) by (split; reflexivity).
  split; [exact C|]. exact (toggle_twice s C).
Defined.

(** A hidden list stays hidden through a good poll, a 204 and a failed
    one. *)
Lemma visibility_survives_polls_at_three :
  let good := Resolved {| status := 200; text := Normal "";
                          body := Normal (JObject
                                    [("probability", JNumber 0.97);
                                     ("history", JArray [reading 823 "10:00"])]) |} in
  let none := Resolved {| status := 204; text := Normal "";
                          body := Throw SyntaxError |} in
  let s := run [ToggleClick; Settled good; Settled none;
                Settled (Rejected NetworkError)] (initState fullDom) in
  readingsVisible s = false /\
  sensorReadingsContainer (dom s) = Some "none".
Proof.
  intros good none s. split; [reflexivity|].
  destruct (visibility_survives_polls
              [Settled good; Settled none; Settled (Rejected NetworkError)]
              (initState fullDom) eq_refl) as [K _].
  exact K.
Defined.

(** After 97 percent and then a 204, the ring is still at its last angle. *)
Lemma waiting_keeps_the_ring_at_97 :
  let data := JObject [("probability", JNumber 0.97)] in
  let f := Resolved {| status := 200; text := Normal ""; body := Normal data |} in
  let none := {| status := 204; text := Normal ""; body := Throw SyntaxError |} in
  let s' := fetchLatest (Resolved none) (fetchLatest f (initState fullDom)) in
  probText (dom s') = Some "--%" /\
  probCircle (dom s') = Some (gradient (Some 97%float)) /\
  lastData s' = data.
Proof.
  intros data f none s'.
  destruct (waiting_keeps_the_ring f none data (initState fullDom)
              (Some 0.97%float) eq_refl eq_refl eq_refl eq_refl eq_refl)
    as (A & _ & C & D).
  repeat split; assumption.
Defined.

(** A page without elements through a body with a [null] entry, which is not
    looked at there, a click, a failed fetch and a probability that cannot
    be converted. *)
Lemma bare_page_stays_bare_at_four :
  let poll data := Settled (Resolved {| status := 200; text := Normal "";
                                        body := Normal data |}) in
  let s := run [poll (JObject [("history", JArray [JNull])]); ToggleClick;
                Settled (Rejected NetworkError);
                poll (JObject [("probability", hidesToString)])]
               (initState barePage) in
  dom s = barePage /\ errorReports (console s) = 2.
Proof.
  intros poll s.
  destruct (bare_page_stays_bare
              [poll (JObject [("history", JArray [JNull])]); ToggleClick;
               Settled (Rejected NetworkError);
               poll (JObject [("probability", hidesToString)])]
              (initState barePage) eq_refl) as [A B].
  split; [exact A|exact B].
Defined.
